(** * The Dashlane team dashboard (src/App.js), embedded and verified

    The file follows the source top-down: the JavaScript value
    conventions the component relies on, the API client, the two utility
    functions, the data carried by the four API responses, the [App] and
    [Body] components as an event-driven state machine (React state, the
    two effects, the promises in flight), and the stateless row and tick
    components. The theorems come last. *)

From Stdlib Require Import PrimFloat FloatOps FloatAxioms SpecFloat ZArith Bool Lia.
From Stdlib Require Uint63.
From Stdlib Require Import Ascii.
From stdpp Require Import gmap strings list.

Set Warnings "-inexact-float".
Local Open Scope string_scope.

(** ** JavaScript conventions used by the source *)

Module Js.

(** A JavaScript number is an IEEE-754 binary64 value. *)
Definition number := float.

(** [a >= b] on numbers; false as soon as one side is NaN. *)
Definition ge (a b : number) : bool := PrimFloat.leb b a.

(** [a < b] on numbers. *)
Definition lt (a b : number) : bool := PrimFloat.ltb a b.

(** [a === b] on numbers ([0 === -0], and NaN equals nothing). *)
Definition strict_eq (a b : number) : bool := PrimFloat.eqb a b.

(** ToBoolean on a number: [0], [-0] and NaN are falsy. *)
Definition truthy_number (f : number) : bool :=
  negb (PrimFloat.is_zero f || PrimFloat.is_nan f).

(** ToBoolean on a string: only the empty string is falsy. *)
Definition truthy_string (s : string) : bool :=
  match s with
  | EmptyString => false
  | String _ _ => true
  end.

(** ToBoolean on a value that is a string, or null/undefined ([None]). *)
Definition truthy (v : option string) : bool :=
  match v with
  | Some s => truthy_string s
  | None => false
  end.

(** [`${v}`] in a template literal, for a string or undefined. *)
Definition interpolate (v : option string) : string :=
  match v with
  | Some s => s
  | None => "undefined"
  end.

(** [v || d] where [v] is a string or null/undefined and [d] a string. *)
Definition or_string (v : option string) (d : string) : string :=
  match v with
  | Some s => if truthy_string s then s else d
  | None => d
  end.

(** What React is handed as the child of an element: a number or a
    string. *)
Inductive child :=
| CNumber (f : number)
| CString (s : string).

(** [v || d] where [v] is a number or null/undefined and [d] a string. *)
Definition or_number (v : option number) (d : string) : child :=
  match v with
  | Some f => if truthy_number f then CNumber f else CString d
  | None => CString d
  end.

End Js.

(** ** API client (source lines 5-13) *)

Record ProcessEnv := { REACT_APP_DASHLANE_API_KEY : option string }.

(** The JSON bodies the dashboard posts. *)
Inductive Payload :=
| MembersQuery (page : Z) (order orderBy : string) (limit : Z)
| DevicesQuery (emails : list string).

Record AxiosConfig := {
  baseURL : string;
  headers : list (string * string)
}.

Record Request := {
  url : string;
  req_headers : list (string * string);
  body : option Payload
}.

Definition API_BASE_URL : string := "/dashlane-api/public/teams".

Definition AUTH_TOKEN (env : ProcessEnv) : option string :=
  REACT_APP_DASHLANE_API_KEY env.

(** [axios.create({ baseURL, headers: { Authorization: `Bearer ${AUTH_TOKEN}` } })] *)
Definition api (env : ProcessEnv) : AxiosConfig :=
  {| baseURL := API_BASE_URL;
     headers := [("Authorization", "Bearer " ++ Js.interpolate (AUTH_TOKEN env))] |}.

(** The characters the platform strips from both ends of a header value
    before it sends it: tab, line feed, carriage return and space. *)
Definition http_whitespace (c : ascii) : bool :=
  match nat_of_ascii c with
  | 9 | 10 | 13 | 32 => true
  | _ => false
  end.

Fixpoint strip_leading (v : string) : string :=
  match v with
  | EmptyString => EmptyString
  | String c v' => if http_whitespace c then strip_leading v' else v
  end.

Fixpoint strip_trailing (v : string) : string :=
  match v with
  | EmptyString => EmptyString
  | String c v' =>
      match strip_trailing v' with
      | EmptyString => if http_whitespace c then EmptyString
                       else String c EmptyString
      | rest => String c rest
      end
  end.

(** A header value as it goes on the wire. *)
Definition normalize_value (v : string) : string :=
  strip_trailing (strip_leading v).

Definition wire_headers (hs : list (string * string))
  : list (string * string) :=
  map (fun kv => (fst kv, normalize_value (snd kv))) hs.

(** [client.post(path, data)]: the request that leaves the browser.
    [req_headers] holds the headers the client was configured with, their
    values as sent; the headers the HTTP library adds by itself (Accept,
    Content-Type) are not listed. *)
Definition post (client : AxiosConfig) (path : string) (data : option Payload)
  : Request :=
  {| url := baseURL client ++ path;
     req_headers := wire_headers (headers client);
     body := data |}.

(** The value of a header of a request, if it is set. *)
Fixpoint header (k : string) (hs : list (string * string)) : option string :=
  match hs with
  | [] => None
  | (k', v) :: hs' => if String.eqb k k' then Some v else header k hs'
  end.

(** What axios rejects with: no answer at all, or a status outside 2xx. *)
Inductive AxiosError :=
| NetworkError
| BadStatus (code : Z).

(** How a promise settles. *)
Inductive Settled (A : Type) :=
| Fulfilled (v : A)
| Rejected (e : AxiosError).
Arguments Fulfilled {A} v.
Arguments Rejected {A} e.

(** Both the axios response and the API's envelope are objects with one
    [data] field: [response.data.data] is [data (data response)]. *)
Record Envelope (A : Type) := { data : A }.
Arguments data {A} _.

Definition Response (A : Type) := Envelope (Envelope A).

Definition respond {A} (payload : A) : Response A :=
  {| data := {| data := payload |} |}.

(** ** Utility functions (source lines 15-27) *)

Record Role := {
  teamAdmin : bool;
  groupManager : bool;
  billingAdmin : bool
}.

Definition getUserRole (role : Role) : string :=
  if teamAdmin role then "Admin"
  else if groupManager role then "Group Manager"
  else if billingAdmin role then "Billing Admin"
  else "User".

Inductive Color := green | orange | red.

Definition getScoreColor (score : Js.number) : Color :=
  if Js.ge score 0.8%float then green
  else if Js.ge score 0.6%float then orange
  else red.

(** The class name the colour ends up in. *)
Definition color_name (c : Color) : string :=
  match c with
  | green => "green"
  | orange => "orange"
  | red => "red"
  end.

(** ** Data carried by the API responses *)

Record Seats := {
  active : Js.number;
  remaining : Js.number;
  pending : Js.number
}.

Record Team := { seats : Seats }.

Record HealthScorePoint := {
  name : option string;
  score : Js.number;
  passwordsTotal : Js.number;
  safe : Js.number;
  weak : Js.number;
  reused : Js.number;
  compromised : Js.number
}.

Record PasswordHealth := {
  history : list HealthScorePoint;
  current : HealthScorePoint
}.

Module Member.

Record Authentication := { type : string }.

Record Health := {
  score : option Js.number;
  weakPasswords : option Js.number;
  compromisedPasswords : option Js.number
}.

Record t := {
  email : string;
  status : string;
  authentication : Authentication;
  role : Role;
  passwordHealth : Health
}.

End Member.

Record Users := { members : list Member.t }.

Module Device.

Record t := {
  name : option string;
  platform : option string;
  appVersion : option string;
  model : option string;
  osVersion : option string
}.

End Device.

Record Devices := { devices : list Device.t }.

(** The object handed to [setDashlaneInfo] (source lines 49-53). *)
Record DashlaneInfo := {
  team : Team;
  healthscore : list HealthScorePoint;
  users : Users
}.

(** ** The [App] and [Body] components as a state machine *)

(** What [Promise.all] has collected so far from the three initial calls. *)
Record Join := {
  got_team : option (Response Team);
  got_healthscore : option (Response PasswordHealth);
  got_users : option (Response Users)
}.

(** The life of [fetchDashlaneInfo]: not called yet, suspended on the
    [await], or returned (through the [try] body or through [catch]). *)
Inductive LoadPhase :=
| NotStarted
| Awaiting (j : Join)
| Returned.

(** React state of both components ([useState] cells, source lines 31-32
    and 73-74), the promises in flight, and the two observable logs. *)
Record State := {
  dashlaneInfo : option DashlaneInfo;
  hasError : bool;
  userDevices : option (list Device.t);
  activeUser : option string;
  load : LoadPhase;
  inflight : gmap nat string;
  network : list Request;
  console : list (string * AxiosError)
}.

(** State at first render: both [useState(null)], [useState(false)]. *)
Definition initial : State :=
  {| dashlaneInfo := None; hasError := false;
     userDevices := None; activeUser := None;
     load := NotStarted; inflight := ∅; network := []; console := [] |}.

Definition setDashlaneInfo (v : DashlaneInfo) (s : State) : State :=
  {| dashlaneInfo := Some v; hasError := hasError s;
     userDevices := userDevices s; activeUser := activeUser s;
     load := load s; inflight := inflight s;
     network := network s; console := console s |}.

Definition setHasError (b : bool) (s : State) : State :=
  {| dashlaneInfo := dashlaneInfo s; hasError := b;
     userDevices := userDevices s; activeUser := activeUser s;
     load := load s; inflight := inflight s;
     network := network s; console := console s |}.

Definition setUserDevices (v : list Device.t) (s : State) : State :=
  {| dashlaneInfo := dashlaneInfo s; hasError := hasError s;
     userDevices := Some v; activeUser := activeUser s;
     load := load s; inflight := inflight s;
     network := network s; console := console s |}.

Definition setActiveUser (v : option string) (s : State) : State :=
  {| dashlaneInfo := dashlaneInfo s; hasError := hasError s;
     userDevices := userDevices s; activeUser := v;
     load := load s; inflight := inflight s;
     network := network s; console := console s |}.

Definition set_load (l : LoadPhase) (s : State) : State :=
  {| dashlaneInfo := dashlaneInfo s; hasError := hasError s;
     userDevices := userDevices s; activeUser := activeUser s;
     load := l; inflight := inflight s;
     network := network s; console := console s |}.

Definition set_inflight (m : gmap nat string) (s : State) : State :=
  {| dashlaneInfo := dashlaneInfo s; hasError := hasError s;
     userDevices := userDevices s; activeUser := activeUser s;
     load := load s; inflight := m;
     network := network s; console := console s |}.

(** A request leaves the browser: it is appended to the network log. *)
Definition send (r : Request) (s : State) : State :=
  {| dashlaneInfo := dashlaneInfo s; hasError := hasError s;
     userDevices := userDevices s; activeUser := activeUser s;
     load := load s; inflight := inflight s;
     network := network s ++ [r]; console := console s |}.

(** [console.error(msg, error)] *)
Definition console_error (msg : string) (e : AxiosError) (s : State) : State :=
  {| dashlaneInfo := dashlaneInfo s; hasError := hasError s;
     userDevices := userDevices s; activeUser := activeUser s;
     load := load s; inflight := inflight s;
     network := network s; console := console s ++ [(msg, e)] |}.

(** What can happen to the page: it mounts, one of the three initial
    promises settles, the selection setter is called, a row's button is
    clicked, or a device request settles. A device request is named by
    its position in the network log. *)
Inductive Event :=
| Mount
| StatusSettled (r : Settled (Response Team))
| PasswordHealthSettled (r : Settled (Response PasswordHealth))
| MembersSettled (r : Settled (Response Users))
| SetActiveUser (v : option string)
| Click (row : nat)
| DevicesSettled (id : nat) (r : Settled (Response Devices)).

Definition no_response : Join :=
  {| got_team := None; got_healthscore := None; got_users := None |}.

Definition with_team (v : Response Team) (j : Join) : Join :=
  {| got_team := Some v; got_healthscore := got_healthscore j;
     got_users := got_users j |}.

Definition with_healthscore (v : Response PasswordHealth) (j : Join) : Join :=
  {| got_team := got_team j; got_healthscore := Some v;
     got_users := got_users j |}.

Definition with_users (v : Response Users) (j : Join) : Join :=
  {| got_team := got_team j; got_healthscore := got_healthscore j;
     got_users := Some v |}.

(** The body of the [try] after the [await] (source lines 49-53). *)
Definition assemble (team : Response Team)
  (healthscore : Response PasswordHealth) (users : Response Users)
  : DashlaneInfo :=
  {| team := data (data team);
     healthscore :=
       history (data (data healthscore)) ++ [current (data (data healthscore))];
     users := data (data users) |}.

(** The [catch] of [fetchDashlaneInfo] (source lines 54-57). *)
Definition fetchDashlaneInfo_catch (e : AxiosError) (s : State) : State :=
  console_error "Failed to fetch Dashlane info:" e (setHasError true s).

(** [Promise.all] after one more of its promises is fulfilled: it stays
    suspended until all three values are there, then the [try] body runs. *)
Definition resume (j : Join) (s : State) : State :=
  match got_team j, got_healthscore j, got_users j with
  | Some t, Some h, Some u =>
      set_load Returned (setDashlaneInfo (assemble t h u) s)
  | _, _, _ => set_load (Awaiting j) s
  end.

(** The first rejection rejects [Promise.all]: the [catch] runs and the
    function returns; what the other promises do later is not looked at. *)
Definition reject (e : AxiosError) (s : State) : State :=
  set_load Returned (fetchDashlaneInfo_catch e s).

(** One of the three promises settles. [slot] reads its place in the join
    (a promise settles once: a second settlement is not an event), [fill]
    writes it. *)
Definition settle {A} (slot : Join -> option A) (fill : A -> Join -> Join)
  (r : Settled A) (s : State) : State :=
  match load s with
  | Awaiting j =>
      match slot j with
      | Some _ => s
      | None =>
          match r with
          | Fulfilled v => resume (fill v j) s
          | Rejected e => reject e s
          end
      end
  | _ => s
  end.

(** [Body] is on screen exactly when [App] gets past its two early
    returns (source lines 63-69). *)
Definition body_mounted (s : State) : bool :=
  negb (hasError s) && bool_decide (is_Some (dashlaneInfo s)).

Section Client.

Variable env : ProcessEnv.

(** [fetchDashlaneInfo] up to its [await] (source lines 36-47). *)
Definition fetchDashlaneInfo (s : State) : State :=
  set_load (Awaiting no_response)
    (send (post (api env) "/Members"
             (Some (MembersQuery 0 "ASC" "email" 100)))
       (send (post (api env) "/PasswordHealth" None)
          (send (post (api env) "/Status" None)
             (setHasError false s)))).

(** [fetchUserDevice] up to its [await] (source lines 77-83). *)
Definition fetchUserDevice (s : State) : State :=
  match activeUser s with
  | Some email =>
      if Js.truthy_string email then
        set_inflight (<[length (network s) := email]> (inflight s))
          (send (post (api env) "/MembersDeviceInformation"
                   (Some (DevicesQuery [email]))) s)
      else s
  | None => s
  end.

(** [fetchUserDevice] after its [await] (source lines 84-87). *)
Definition fetchUserDevice_resume (r : Settled (Response Devices))
  (s : State) : State :=
  match r with
  | Fulfilled response => setUserDevices (devices (data (data response))) s
  | Rejected e => console_error "Failed to fetch user devices:" e s
  end.

(** The state setter of [activeUser] followed by the effect that
    depends on it: React re-renders and re-runs the effect only when the
    value changed. *)
Definition select (v : option string) (s : State) : State :=
  if body_mounted s then
    if decide (v = activeUser s) then s
    else fetchUserDevice (setActiveUser v s)
  else s.

(** The button of a row exists only for an accepted member; its handler
    is [setActiveUser(user.email)] (source lines 175-179). *)
Definition click (row : nat) (s : State) : State :=
  match dashlaneInfo s with
  | Some info =>
      match members (users info) !! row with
      | Some user =>
          if String.eqb (Member.status user) "accepted"
          then select (Some (Member.email user)) s
          else s
      | None => s
      end
  | None => s
  end.

Definition step (s : State) (ev : Event) : State :=
  match ev with
  | Mount =>
      match load s with
      | NotStarted => fetchDashlaneInfo s
      | _ => s
      end
  | StatusSettled r => settle got_team with_team r s
  | PasswordHealthSettled r => settle got_healthscore with_healthscore r s
  | MembersSettled r => settle got_users with_users r s
  | SetActiveUser v => select v s
  | Click row => click row s
  | DevicesSettled id r =>
      match inflight s !! id with
      | Some _ => fetchUserDevice_resume r (set_inflight (delete id (inflight s)) s)
      | None => s
      end
  end.

Definition run (s : State) (evs : list Event) : State :=
  fold_left step evs s.

End Client.

(** What [App] returns (source lines 63-69). *)
Inductive Screen :=
| FailedToFetch
| Loading
| BodyOf (info : DashlaneInfo) (shown : option (list Device.t)).

Definition App (s : State) : Screen :=
  if hasError s then FailedToFetch
  else match dashlaneInfo s with
       | None => Loading
       | Some info => BodyOf info (userDevices s)
       end.

(** ** Stateless components *)

(** [UserDevice] (source lines 110-124): the five texts of a row. *)
Record DeviceRow := {
  device_name : option string;
  device_platform : option string;
  device_appVersion : string;
  device_model : string;
  device_osVersion : string
}.

Definition UserDevice (device : Device.t) : DeviceRow :=
  {| device_name := Device.name device;
     device_platform := Device.platform device;
     device_appVersion := Js.or_string (Device.appVersion device) "-";
     device_model := Js.or_string (Device.model device) "-";
     device_osVersion := Js.or_string (Device.osVersion device) "-" |}.

(** [DevicesInfo] (source lines 126-150): nothing for [null], else one row
    per device (an array, even an empty one, is truthy). *)
Definition DevicesInfo (userDevices : option (list Device.t))
  : option (list DeviceRow) :=
  match userDevices with
  | None => None
  | Some ds => Some (map UserDevice ds)
  end.

(** [UserProfile] (source lines 152-183): the cells of a member's row. *)
Record UserRow := {
  cell_email : string;
  cell_status : string;
  cell_status_class : string;
  cell_score : Js.child;
  cell_weak : Js.child;
  cell_compromised : Js.child;
  cell_authentication : string;
  cell_role : string;
  cell_button : bool
}.

Definition UserProfile (user : Member.t) : UserRow :=
  let auth_type :=
    if String.eqb (Member.type (Member.authentication user)) "email_token"
    then "Email token" else "-" in
  let accepted := String.eqb (Member.status user) "accepted" in
  let status := if accepted then "Dashlane user" else Member.status user in
  let role := getUserRole (Member.role user) in
  {| cell_email := Member.email user;
     cell_status := status;
     cell_status_class :=
       "type " ++ (if accepted then "type--invited" else "type--not_invited");
     cell_score := Js.or_number (Member.score (Member.passwordHealth user)) "-";
     cell_weak :=
       Js.or_number (Member.weakPasswords (Member.passwordHealth user)) "-";
     cell_compromised :=
       Js.or_number (Member.compromisedPasswords (Member.passwordHealth user)) "-";
     cell_authentication := auth_type;
     cell_role := role;
     cell_button := accepted |}.

(** [UsersInfo] (source lines 185-209). *)
Definition UsersInfo (users : Users) : list UserRow :=
  map UserProfile (members users).

(** The props the chart hands to a tick component. *)
Record TickPayload := { value : option string }.

Record TickProps := {
  x : Js.number;
  y : Js.number;
  index : nat;
  payload : TickPayload
}.

Record TickText := {
  translate : Js.number * Js.number;
  textAnchor : string;
  label : string
}.

(** [CustomizedAxisTick] (source lines 235-250). *)
Definition CustomizedAxisTick (props : TickProps) : TickText :=
  let label := Js.or_string (value (payload props)) "Now" in
  {| translate := (x props, y props);
     textAnchor := if String.eqb label "Now" then "end" else "start";
     label := label |}.

(** [<LineChart data={healthscore}>] (source line 260): the series is the
    chart's data as it is. *)
Definition chart_data (healthscore : list HealthScorePoint)
  : list HealthScorePoint := healthscore.

(** [<XAxis dataKey="name" tick={<CustomizedAxisTick />}>] (source lines
    266-271). No [interval] is set, so the chart library draws a tick for
    some of the entries only: it hides the ticks whose labels would
    overlap. Which entries get a tick is the library's business
    ([visible], by position in the data), and so is where a tick is placed
    ([place]). A tick that is drawn is handed its position among the ticks
    drawn as [index] and what [dataKey] reads from its entry as
    [payload.value]. *)
Definition tick_props (place : nat -> Js.number * Js.number) (i : nat)
  (p : HealthScorePoint) : TickProps :=
  {| x := fst (place i); y := snd (place i); index := i;
     payload := {| value := name p |} |}.

(** The entries that get a tick, in order; [i] is the position of the
    first entry of [data] in the whole series. *)
Fixpoint drawn_from (visible : nat -> bool) (i : nat)
  (data : list HealthScorePoint) : list HealthScorePoint :=
  match data with
  | [] => []
  | p :: rest =>
      if visible i then p :: drawn_from visible (S i) rest
      else drawn_from visible (S i) rest
  end.

Definition XAxis (place : nat -> Js.number * Js.number)
  (visible : nat -> bool) (data : list HealthScorePoint) : list TickText :=
  imap (fun k p => CustomizedAxisTick (tick_props place k p))
    (drawn_from visible 0 data).

(** [HealthScoreDetails] (source lines 294-333). Reading [.score] of
    [healthscore[healthscore.length - 1]] throws on an empty array: [None]. *)
Record ScoreSummary := {
  summary_score : Js.number;
  summary_color : Color;
  summary_point : HealthScorePoint
}.

Definition HealthScoreDetails (healthscore : list HealthScorePoint)
  : option ScoreSummary :=
  match last healthscore with
  | Some currentScore =>
      let score := PrimFloat.div (score currentScore) 100%float in
      Some {| summary_score := score;
              summary_color := getScoreColor score;
              summary_point := currentScore |}
  | None => None
  end.

(** ** Auxiliary definitions for the statements *)

Definition is_rejected {A} (r : Settled A) : bool :=
  match r with
  | Rejected _ => true
  | Fulfilled _ => false
  end.

(** The request [fetchUserDevice] sends for an email. *)
Definition devices_request (env : ProcessEnv) (email : string) : Request :=
  post (api env) "/MembersDeviceInformation" (Some (DevicesQuery [email])).

(** A request that carries the headers the client was created with. *)
Definition by_client (env : ProcessEnv) (r : Request) : Prop :=
  req_headers r = wire_headers (headers (api env)).

(** ** Sample data *)

Definition point (n : option string) (sc : Js.number) : HealthScorePoint :=
  {| name := n; score := sc; passwordsTotal := 10%float; safe := 7%float;
     weak := 2%float; reused := 1%float; compromised := 0%float |}.

Definition no_key : ProcessEnv := {| REACT_APP_DASHLANE_API_KEY := None |}.

Definition some_key : ProcessEnv :=
  {| REACT_APP_DASHLANE_API_KEY := Some "DLP_0123" |}.

Definition sample_team : Team :=
  {| seats := {| active := 3%float; remaining := 2%float; pending := 1%float |} |}.

Definition sample_health : PasswordHealth :=
  {| history := [point (Some "Sep") 70%float; point (Some "Oct") 75%float];
     current := point None 82%float |}.

Definition member (email status : string) : Member.t :=
  {| Member.email := email;
     Member.status := status;
     Member.authentication := {| Member.type := "email_token" |};
     Member.role :=
       {| teamAdmin := false; groupManager := false; billingAdmin := false |};
     Member.passwordHealth :=
       {| Member.score := Some 80%float;
          Member.weakPasswords := Some 1%float;
          Member.compromisedPasswords := None |} |}.

Definition sample_users : Users :=
  {| members := [member "a@x.com" "accepted"; member "b@x.com" "accepted";
                 member "c@x.com" "pending"] |}.

(** The page mounts and the three initial calls succeed. *)
Definition loaded : list Event :=
  [ Mount;
    StatusSettled (Fulfilled (respond sample_team));
    PasswordHealthSettled (Fulfilled (respond sample_health));
    MembersSettled (Fulfilled (respond sample_users)) ].

Definition device (n : string) : Device.t :=
  {| Device.name := Some n; Device.platform := Some "server_macosx";
     Device.appVersion := Some "6.2"; Device.model := None;
     Device.osVersion := None |}.

Definition devices_of_a : Response Devices :=
  respond {| devices := [device "a-laptop"] |}.

Definition devices_of_b : Response Devices :=
  respond {| devices := [device "b-phone"; device "b-laptop"] |}.

Definition nobody : Member.t :=
  {| Member.email := "a@x.com";
     Member.status := "accepted";
     Member.authentication := {| Member.type := "email_token" |};
     Member.role :=
       {| teamAdmin := false; groupManager := false; billingAdmin := false |};
     Member.passwordHealth :=
       {| Member.score := Some 0%float;
          Member.weakPasswords := Some (-0)%float;
          Member.compromisedPasswords := None |} |}.

(** ** Definitions for the further properties *)

(** Red below orange below green. *)
Definition rank (c : Color) : nat :=
  match c with
  | red => 0
  | orange => 1
  | green => 2
  end.

(** The number a whole score from the API is. *)
Definition whole (n : nat) : Js.number :=
  PrimFloat.of_uint63 (Uint63.of_Z (Z.of_nat n)).

(** The colour a whole score is expected to get. *)
Definition band (n : nat) : Color :=
  if (80 <=? n)%nat then green else if (60 <=? n)%nat then orange else red.

(** Equality of colours, as a test. *)
Definition same_color (a b : Color) : bool :=
  Nat.eqb (rank a) (rank b).

(** A printable character other than the space (codes 33 to 126). *)
Definition visible_ascii (c : ascii) : bool :=
  (33 <=? nat_of_ascii c)%nat && (nat_of_ascii c <=? 126)%nat.

(** The three requests of [fetchDashlaneInfo], in the order they are sent. *)
Definition initial_requests (env : ProcessEnv) : list Request :=
  [ post (api env) "/Status" None;
    post (api env) "/PasswordHealth" None;
    post (api env) "/Members" (Some (MembersQuery 0 "ASC" "email" 100)) ].

(** The shape of the state once the load has succeeded. *)
Definition showing (env : ProcessEnv) (s : State) : Prop :=
  hasError s = false /\
  is_Some (dashlaneInfo s) /\
  (exists emails,
     network s = (initial_requests env ++ map (devices_request env) emails)%list /\
     Forall (fun e => e <> "") emails) /\
  (forall id e, inflight s !! id = Some e ->
                network s !! id = Some (devices_request env e)) /\
  Forall (fun entry => fst entry = "Failed to fetch user devices:") (console s).

(** The shape of the state while [Body] is not on screen. *)
Definition idle (s : State) : Prop :=
  dashlaneInfo s = None /\ userDevices s = None /\ activeUser s = None /\
  inflight s = ∅.

(** What holds of the state in each phase of the load. *)
Definition reachable_shape (env : ProcessEnv) (s : State) : Prop :=
  match load s with
  | NotStarted => s = initial
  | Awaiting j =>
      (got_team j = None \/ got_healthscore j = None \/ got_users j = None) /\
      idle s /\ hasError s = false /\
      network s = initial_requests env /\ console s = []
  | Returned =>
      (idle s /\ hasError s = true /\ network s = initial_requests env /\
       exists e, console s = [("Failed to fetch Dashlane info:", e)])
      \/ showing env s
  end.

(** A console entry written by the [catch] of [fetchDashlaneInfo]. *)
Definition load_failure (entry : string * AxiosError) : bool :=
  String.eqb (fst entry) "Failed to fetch Dashlane info:".

(** Every value the join holds was delivered by an event of the trace. *)
Definition joined (evs : list Event) (j : Join) : Prop :=
  (forall t, got_team j = Some t -> StatusSettled (Fulfilled t) ∈ evs) /\
  (forall h, got_healthscore j = Some h ->
             PasswordHealthSettled (Fulfilled h) ∈ evs) /\
  (forall u, got_users j = Some u -> MembersSettled (Fulfilled u) ∈ evs).

(** What is stored was assembled from three responses of the trace. *)
Definition assembled (evs : list Event) (s : State) : Prop :=
  forall info, dashlaneInfo s = Some info ->
    exists t h u, joined evs {| got_team := Some t; got_healthscore := Some h;
                                got_users := Some u |} /\
                  info = assemble t h u.

(** Where the values held by the join and by [dashlaneInfo] come from. *)
Definition from_responses (evs : list Event) (s : State) : Prop :=
  (load s <> NotStarted -> Mount ∈ evs) /\
  (forall j, load s = Awaiting j -> joined evs j) /\
  assembled evs s.

(** One of the three initial calls is rejected. *)
Definition is_rejection (ev : Event) : bool :=
  match ev with
  | StatusSettled (Rejected _)
  | PasswordHealthSettled (Rejected _)
  | MembersSettled (Rejected _) => true
  | _ => false
  end.

(** Events the page produces by itself: all but a direct call of the
    setter with an arbitrary value. *)
Definition from_page (ev : Event) : bool :=
  match ev with
  | SetActiveUser _ => false
  | _ => true
  end.

(** [e] is the email of a member of [info] whose status is "accepted". *)
Definition accepted_email (info : DashlaneInfo) (e : string) : Prop :=
  exists user, user ∈ members (users info) /\
               Member.email user = e /\ Member.status user = "accepted".

(** The selection and the device requests concern accepted members. *)
Definition selects_accepted (env : ProcessEnv) (s : State) : Prop :=
  forall info, dashlaneInfo s = Some info ->
    (forall e, activeUser s = Some e -> accepted_email info e) /\
    (forall r, r ∈ network s ->
       r ∈ initial_requests env \/
       exists e, accepted_email info e /\ r = devices_request env e).

(** * Properties *)

(** ** Comparison of binary64 numbers *)

Lemma SFcompare_swap (a b : spec_float) :
  SFcompare b a = option_map CompOpp (SFcompare a b).
Proof.
  destruct a as [sa|sa| |sa ma ea], b as [sb|sb| |sb mb eb]; simpl;
    try reflexivity;
    try (destruct sa; reflexivity);
    try (destruct sb; reflexivity);
    try (destruct sa, sb; reflexivity).
  destruct sa, sb; simpl; try reflexivity;
    rewrite (Z.compare_antisym ea eb);
    destruct (ea ?= eb)%Z; simpl; try reflexivity;
    rewrite (Pos.compare_cont_antisym ma mb Eq); simpl;
    try rewrite CompOpp_involutive; reflexivity.
Qed.

(** [a < b] excludes [a >= b]. *)
Lemma lt_not_ge (a b : Js.number) : Js.lt a b = true -> Js.ge a b = false.
Proof.
  unfold Js.lt, Js.ge. rewrite ltb_spec, leb_spec.
  unfold SFltb, SFleb. rewrite (SFcompare_swap (Prim2SF a) (Prim2SF b)).
  destruct (SFcompare (Prim2SF a) (Prim2SF b)) as [[]|]; simpl; congruence.
Qed.

(** A number that compares with some number is not NaN, and two numbers
    that are not NaN are ordered one way or the other. *)
Lemma not_ge_lt (a b c : Js.number) :
  Js.ge a c = true -> Js.ge b b = true -> Js.ge a b = false -> Js.lt a b = true.
Proof.
  unfold Js.lt, Js.ge. rewrite ltb_spec, !leb_spec.
  unfold SFltb, SFleb. rewrite (SFcompare_swap (Prim2SF a) (Prim2SF b)).
  destruct (SFcompare (Prim2SF a) (Prim2SF b)) as [[]|] eqn:E; simpl;
    try congruence.
  intros Hc Hb _. exfalso.
  destruct (Prim2SF a) as [sa|sa| |sa ma ea], (Prim2SF b) as [sb|sb| |sb mb eb],
    (Prim2SF c) as [sc|sc| |sc mc ec]; simpl in *; discriminate.
Qed.

(** A score that reaches the green threshold reaches the orange one. *)
Lemma ge_green_ge_orange (s : Js.number) :
  Js.ge s 0.8%float = true -> Js.ge s 0.6%float = true.
Proof.
  unfold Js.ge. rewrite !leb_spec.
  set (hi := Prim2SF 0.8%float). set (lo := Prim2SF 0.6%float).
  vm_compute in hi, lo. subst hi lo. unfold SFleb.
  destruct (Prim2SF s) as [sg|sg| |sg m e]; cbn [SFcompare]; try congruence.
  destruct sg; try congruence.
  destruct (Z.compare_spec (-53) e) as [<-| |]; try congruence.
  change (Pos.compare_cont Eq ?a ?b) with (Pos.compare a b).
  fold (Pos.leb 7205759403792794 m). fold (Pos.leb 5404319552844595 m).
  rewrite !Pos.leb_le. intros H.
  apply (Pos.le_trans _ 7205759403792794); [| exact H].
  apply Pos.leb_le. vm_compute. reflexivity.
Qed.

(** ** The two utility functions *)

(** C7: for a score in [0,1], [getScoreColor] is green from 0.8 up, orange
    from 0.6 up to but excluding 0.8, red below 0.6; one of the three
    cases applies; and the four boundary values 0.8, 0.6, 0.59999 and 1.0
    are green, orange, red and green. *)
Theorem getScoreColor_bands (s : Js.number) :
  Js.ge s 0%float = true -> Js.ge 1%float s = true ->
  (Js.ge s 0.8%float = true -> getScoreColor s = green) /\
  (Js.ge s 0.6%float = true -> Js.lt s 0.8%float = true ->
   getScoreColor s = orange) /\
  (Js.lt s 0.6%float = true -> getScoreColor s = red) /\
  (Js.ge s 0.8%float = true \/
   (Js.ge s 0.6%float = true /\ Js.lt s 0.8%float = true) \/
   Js.lt s 0.6%float = true) /\
  getScoreColor 0.8%float = green /\
  getScoreColor 0.6%float = orange /\
  getScoreColor 0.59999%float = red /\
  getScoreColor 1.0%float = green.
Proof.
  intros H0 _. unfold getScoreColor. repeat split; try reflexivity.
  - intros ->. reflexivity.
  - intros Ho Hg. rewrite (lt_not_ge _ _ Hg), Ho. reflexivity.
  - intros Hr. pose proof (lt_not_ge _ _ Hr) as Hn.
    destruct (Js.ge s 0.8%float) eqn:Hg.
    + rewrite (ge_green_ge_orange _ Hg) in Hn. discriminate.
    + rewrite Hn. reflexivity.
  - destruct (Js.ge s 0.8%float) eqn:Hg; [left; reflexivity | right].
    assert (Hlt : Js.lt s 0.8%float = true)
      by (apply (not_ge_lt _ _ _ H0); [reflexivity | exact Hg]).
    destruct (Js.ge s 0.6%float) eqn:Ho; [left; split; auto | right].
    apply (not_ge_lt _ _ _ H0); [reflexivity | exact Ho].
Qed.

Lemma getScoreColor_bands_witness :
  Js.ge 0.7%float 0%float = true /\ Js.ge 1%float 0.7%float = true /\
  getScoreColor 0.7%float = orange.
Proof.
  split; [reflexivity | split; [reflexivity |]].
  apply (getScoreColor_bands 0.7%float); reflexivity.
Defined.

(** C8: [getUserRole] gives one label for each of the eight settings of
    the three flags: "Admin" when [teamAdmin] is set; else "Group Manager"
    when [groupManager] is set; else "Billing Admin" when [billingAdmin]
    is set; else "User". *)
Theorem getUserRole_precedence (a g b : bool) :
  let role := {| teamAdmin := a; groupManager := g; billingAdmin := b |} in
  (exists! l : string, getUserRole role = l) /\
  (a = true -> getUserRole role = "Admin") /\
  (a = false -> g = true -> getUserRole role = "Group Manager") /\
  (a = false -> g = false -> b = true -> getUserRole role = "Billing Admin") /\
  (a = false -> g = false -> b = false -> getUserRole role = "User") /\
  map getUserRole
    [ {| teamAdmin := true; groupManager := true; billingAdmin := true |};
      {| teamAdmin := true; groupManager := true; billingAdmin := false |};
      {| teamAdmin := true; groupManager := false; billingAdmin := true |};
      {| teamAdmin := true; groupManager := false; billingAdmin := false |};
      {| teamAdmin := false; groupManager := true; billingAdmin := true |};
      {| teamAdmin := false; groupManager := true; billingAdmin := false |};
      {| teamAdmin := false; groupManager := false; billingAdmin := true |};
      {| teamAdmin := false; groupManager := false; billingAdmin := false |} ]
  = [ "Admin"; "Admin"; "Admin"; "Admin";
      "Group Manager"; "Group Manager"; "Billing Admin"; "User" ].
Proof.
  cbv zeta. split; [| repeat split].
  - exists (getUserRole {| teamAdmin := a; groupManager := g; billingAdmin := b |}).
    split; [reflexivity | intros l Hl; exact Hl].
  - intros ->. reflexivity.
  - intros -> ->. reflexivity.
  - intros -> -> ->. reflexivity.
  - intros -> -> ->. reflexivity.
Qed.

(** ** The table of members *)

(** C10: a member's score, weak count or compromised count that equals 0
    is rendered as the placeholder "-", which is also what an absent value
    renders as; the cell never holds the number. *)
Theorem UserProfile_zero_is_dash (user : Member.t) (f : Js.number) :
  Js.strict_eq f 0%float = true ->
  (Member.score (Member.passwordHealth user) = Some f ->
   cell_score (UserProfile user) = Js.CString "-") /\
  (Member.weakPasswords (Member.passwordHealth user) = Some f ->
   cell_weak (UserProfile user) = Js.CString "-") /\
  (Member.compromisedPasswords (Member.passwordHealth user) = Some f ->
   cell_compromised (UserProfile user) = Js.CString "-") /\
  (Member.score (Member.passwordHealth user) = None ->
   cell_score (UserProfile user) = Js.CString "-") /\
  (Member.weakPasswords (Member.passwordHealth user) = None ->
   cell_weak (UserProfile user) = Js.CString "-") /\
  (Member.compromisedPasswords (Member.passwordHealth user) = None ->
   cell_compromised (UserProfile user) = Js.CString "-").
Proof.
  intros Hz.
  assert (Hf : Js.or_number (Some f) "-" = Js.CString "-").
  { unfold Js.or_number, Js.truthy_number.
    change (PrimFloat.is_zero f) with (Js.strict_eq f 0%float).
    rewrite Hz. reflexivity. }
  unfold UserProfile; simpl.
  repeat split; intros ->; first [exact Hf | reflexivity].
Qed.

Lemma UserProfile_zero_is_dash_witness :
  Js.strict_eq 0%float 0%float = true /\
  cell_score (UserProfile nobody) = Js.CString "-".
Proof.
  split; [reflexivity |].
  apply (UserProfile_zero_is_dash nobody 0%float); reflexivity.
Defined.

(** ** The ticks of the chart's axis *)

(** Every entry that gets a tick is an entry of the data at a position the
    chart library chose, and conversely. *)
Lemma elem_of_drawn_from (visible : nat -> bool) (a : nat)
  (data : list HealthScorePoint) (p : HealthScorePoint) :
  p ∈ drawn_from visible a data <->
  exists j, data !! j = Some p /\ visible (a + j)%nat = true.
Proof.
  revert a. induction data as [|q data IH]; intros a; simpl.
  - split; [intros H; inversion H | intros (j & H & _); discriminate].
  - split.
    + intros H. destruct (visible a) eqn:Hv.
      * apply elem_of_cons in H as [-> | H].
        -- exists 0%nat. rewrite Nat.add_0_r. auto.
        -- apply IH in H as (j & Hj & Hvj). exists (S j).
           rewrite Nat.add_succ_r. auto.
      * apply IH in H as (j & Hj & Hvj). exists (S j).
        rewrite Nat.add_succ_r. auto.
    + intros ([|j] & Hj & Hvj); simpl in Hj.
      * injection Hj as ->. rewrite Nat.add_0_r in Hvj. rewrite Hvj. left.
      * rewrite Nat.add_succ_r in Hvj.
        assert (Hin : p ∈ drawn_from visible (S a) data)
          by (apply IH; exists j; auto).
        destruct (visible a); [right |]; exact Hin.
Qed.

(** The claim C9 as stated fails: here the last point of the series has a
    name and its tick shows that name, and the first point has none and
    its tick shows "Now". *)
Lemma CustomizedAxisTick_last_not_Now :
  let series := [point None 70%float; point (Some "Oct") 82%float] in
  let ticks :=
    XAxis (fun _ => (0%float, 0%float)) (fun _ => true) (chart_data series) in
  label <$> last ticks = Some "Oct" /\
  label <$> ticks !! 0%nat = Some "Now" /\
  label <$> last ticks <> Some "Now".
Proof. cbv zeta. repeat split. discriminate. Qed.

(** C9, amended: the chart gets the series as it is and draws a tick for
    the points it chooses. The tick of a point that gets one, whatever the
    point's position, shows the point's name when the name is a non-empty
    string and "Now" when the name is absent or empty; and every tick that
    is drawn is the tick of such a point, labelled in this way. *)
Theorem CustomizedAxisTick_label (place : nat -> Js.number * Js.number)
  (visible : nat -> bool) (series : list HealthScorePoint) (i : nat)
  (p : HealthScorePoint) :
  series !! i = Some p -> visible i = true ->
  chart_data series = series /\
  (exists t, t ∈ XAxis place visible (chart_data series) /\
     (forall n, name p = Some n -> n <> "" -> label t = n) /\
     (name p = None \/ name p = Some "" -> label t = "Now")) /\
  (forall t, t ∈ XAxis place visible (chart_data series) ->
     exists j q, series !! j = Some q /\ visible j = true /\
       (forall n, name q = Some n -> n <> "" -> label t = n) /\
       (name q = None \/ name q = Some "" -> label t = "Now")).
Proof.
  intros Hp Hv.
  assert (Hlabel : forall k q,
            (forall n, name q = Some n -> n <> "" ->
                       label (CustomizedAxisTick (tick_props place k q)) = n) /\
            (name q = None \/ name q = Some "" ->
             label (CustomizedAxisTick (tick_props place k q)) = "Now")).
  { intros k q. unfold CustomizedAxisTick, tick_props; simpl. split.
    - intros n -> Hn. destruct n; [contradiction | reflexivity].
    - intros [-> | ->]; reflexivity. }
  split; [reflexivity |]. unfold XAxis, chart_data. split.
  - assert (Hin : p ∈ drawn_from visible 0 series)
      by (apply elem_of_drawn_from; exists i; auto).
    apply list_elem_of_lookup in Hin as [k Hk].
    exists (CustomizedAxisTick (tick_props place k p)). split.
    + apply list_elem_of_lookup. exists k.
      rewrite list_lookup_imap, Hk. reflexivity.
    + apply Hlabel.
  - intros t Ht. apply list_elem_of_lookup in Ht as [k Hk].
    rewrite list_lookup_imap in Hk.
    destruct (drawn_from visible 0 series !! k) as [q|] eqn:Hq;
      [| discriminate].
    injection Hk as <-.
    assert (Hin : q ∈ drawn_from visible 0 series)
      by (apply list_elem_of_lookup; eauto).
    apply elem_of_drawn_from in Hin as (j & Hj & Hvj).
    exists j, q. split; [exact Hj | split; [exact Hvj | apply Hlabel]].
Qed.

Lemma CustomizedAxisTick_label_witness :
  exists t,
    t ∈ XAxis (fun _ => (0%float, 0%float)) (fun i => negb (Nat.eqb i 0))
          (chart_data [point (Some "Sep") 64%float; point (Some "Oct") 70%float;
                       point None 82%float]) /\
    label t = "Now".
Proof.
  destruct (CustomizedAxisTick_label (fun _ => (0%float, 0%float))
              (fun i => negb (Nat.eqb i 0))
              [point (Some "Sep") 64%float; point (Some "Oct") 70%float;
               point None 82%float] 2
              (point None 82%float) eq_refl eq_refl)
    as (_ & (t & Ht & _ & Hnow) & _).
  exists t. split; [exact Ht | apply Hnow; left; reflexivity].
Defined.

(** ** The initial load *)

(** The three settlements of the initial calls, in every order they can
    come in. *)
Lemma arrival_orders (a b c : Event) (evs : list Event) :
  evs ≡ₚ [a; b; c] ->
  evs = [a; b; c] \/ evs = [b; a; c] \/ evs = [b; c; a] \/
  evs = [a; c; b] \/ evs = [c; a; b] \/ evs = [c; b; a].
Proof.
  intros H. symmetry in H. apply permutations_Permutation in H.
  cbv [permutations interleave mbind list_bind list_fmap fmap app] in H.
  rewrite !elem_of_cons, elem_of_nil in H. tauto.
Qed.

(** Once the load has failed, nothing that happens later changes the two
    state cells of [App]. *)
Lemma failed_is_final (env : ProcessEnv) (s : State) (ev : Event) :
  load s = Returned -> hasError s = true -> dashlaneInfo s = None ->
  load (step env s ev) = Returned /\
  hasError (step env s ev) = true /\
  dashlaneInfo (step env s ev) = None.
Proof.
  intros Hl He Hd.
  destruct ev as [ |r|r|r|v|row|id r]; simpl;
    unfold settle, select, click, body_mounted;
    rewrite ?Hl, ?He, ?Hd; simpl; auto.
  destruct (inflight s !! id); [destruct r |]; simpl; auto.
Qed.

Lemma failed_stays_failed (env : ProcessEnv) (evs : list Event) (s : State) :
  load s = Returned -> hasError s = true -> dashlaneInfo s = None ->
  hasError (run env s evs) = true /\ dashlaneInfo (run env s evs) = None.
Proof.
  revert s. induction evs as [|ev evs IH]; intros s Hl He Hd; [auto |].
  destruct (failed_is_final env s ev Hl He Hd) as (Hl' & He' & Hd').
  exact (IH _ Hl' He' Hd').
Qed.

(** C2: whatever the order in which the three initial calls settle, if one
    of them is rejected the state is the error state, with no
    [dashlaneInfo] at all (so no field of it), one logged error, and the
    error screen; and it remains so whatever happens afterwards. *)
Theorem initial_load_all_or_nothing (env : ProcessEnv)
  (r1 : Settled (Response Team)) (r2 : Settled (Response PasswordHealth))
  (r3 : Settled (Response Users)) (evs later : list Event) :
  evs ≡ₚ [StatusSettled r1; PasswordHealthSettled r2; MembersSettled r3] ->
  is_rejected r1 || is_rejected r2 || is_rejected r3 = true ->
  let s := run env initial (Mount :: evs) in
  hasError s = true /\ dashlaneInfo s = None /\ App s = FailedToFetch /\
  length (console s) = 1%nat /\
  hasError (run env s later) = true /\ dashlaneInfo (run env s later) = None.
Proof.
  intros Hp Hr s.
  assert (H : load s = Returned /\ hasError s = true /\ dashlaneInfo s = None
              /\ length (console s) = 1%nat).
  { subst s.
    destruct (arrival_orders _ _ _ _ Hp) as [->|[->|[->|[->|[->| ->]]]]];
      destruct r1, r2, r3; try discriminate Hr; repeat split; reflexivity. }
  destruct H as (Hl & He & Hd & Hc). repeat split; auto.
  - unfold App. rewrite He. reflexivity.
  - apply failed_stays_failed; assumption.
  - apply failed_stays_failed; assumption.
Qed.

Lemma initial_load_all_or_nothing_witness :
  let s :=
    run some_key initial
      [ Mount;
        PasswordHealthSettled (Fulfilled (respond sample_health));
        StatusSettled (Rejected (BadStatus 500));
        MembersSettled (Fulfilled (respond sample_users)) ] in
  hasError s = true /\ dashlaneInfo s = None.
Proof.
  destruct (initial_load_all_or_nothing some_key
              (Rejected (BadStatus 500))
              (Fulfilled (respond sample_health))
              (Fulfilled (respond sample_users))
              [ PasswordHealthSettled (Fulfilled (respond sample_health));
                StatusSettled (Rejected (BadStatus 500));
                MembersSettled (Fulfilled (respond sample_users)) ]
              [] (perm_swap _ _ _) eq_refl) as (He & Hd & _).
  split; assumption.
Defined.

(** C3: whatever the order in which the three initial calls succeed, with
    history [h] and current point [c], the stored series is [h] followed
    by [c] alone (one longer than [h], ending in [c]), and the team and
    the members are the payloads of their responses, unchanged. *)
Theorem initial_load_assembles (env : ProcessEnv) (t : Team)
  (h : list HealthScorePoint) (c : HealthScorePoint) (u : Users)
  (evs : list Event) :
  evs ≡ₚ [ StatusSettled (Fulfilled (respond t));
           PasswordHealthSettled
             (Fulfilled (respond {| history := h; current := c |}));
           MembersSettled (Fulfilled (respond u)) ] ->
  let s := run env initial (Mount :: evs) in
  hasError s = false /\
  exists info,
    dashlaneInfo s = Some info /\
    healthscore info = (h ++ [c])%list /\
    length (healthscore info) = (length h + 1)%nat /\
    last (healthscore info) = Some c /\
    team info = t /\
    users info = u.
Proof.
  intros Hp s.
  assert (H : hasError s = false /\
              dashlaneInfo s =
                Some {| team := t; healthscore := h ++ [c]; users := u |}).
  { subst s.
    destruct (arrival_orders _ _ _ _ Hp) as [->|[->|[->|[->|[->| ->]]]]];
      split; reflexivity. }
  destruct H as [He Hd]. split; [exact He |].
  eexists. split; [exact Hd |]. simpl. repeat split.
  - apply length_app.
  - apply last_snoc.
Qed.

Lemma initial_load_assembles_witness :
  exists info,
    dashlaneInfo (run some_key initial loaded) = Some info /\
    healthscore info =
      [point (Some "Sep") 70%float; point (Some "Oct") 75%float;
       point None 82%float].
Proof.
  destruct (initial_load_assembles some_key sample_team
              (history sample_health) (current sample_health) sample_users
              (tail loaded) (Permutation_refl _))
    as (_ & info & Hd & Hs & _).
  exists info. split; [exact Hd | exact Hs].
Defined.

(** The series stored by a successful load is never empty, so
    [HealthScoreDetails] finds its last point: the current one. *)
Lemma HealthScoreDetails_current (h : list HealthScorePoint)
  (c : HealthScorePoint) :
  HealthScoreDetails (h ++ [c]) =
    Some {| summary_score := PrimFloat.div (score c) 100%float;
            summary_color := getScoreColor (PrimFloat.div (score c) 100%float);
            summary_point := c |}.
Proof. unfold HealthScoreDetails. rewrite last_snoc. reflexivity. Qed.

(** Scores come on the 0-100 scale: 80 and 60 land on the thresholds. *)
Example HealthScoreDetails_thresholds :
  summary_color <$> HealthScoreDetails [point None 80%float] = Some green /\
  summary_color <$> HealthScoreDetails [point None 60%float] = Some orange /\
  summary_color <$> HealthScoreDetails [point None 59%float] = Some red.
Proof. repeat split. Qed.

(** ** The device list *)

(** A change of selection to a non-empty email, while [Body] is on screen,
    sends one request and records it as in flight. *)
Lemma select_issues (env : ProcessEnv) (s : State) (email : string) :
  body_mounted s = true -> email <> "" -> activeUser s <> Some email ->
  select env (Some email) s =
    set_inflight (<[length (network s) := email]> (inflight s))
      (send (devices_request env email) (setActiveUser (Some email) s)).
Proof.
  intros Hm He Ha. unfold select. rewrite Hm.
  destruct (decide (Some email = activeUser s)) as [E|_]; [congruence |].
  unfold fetchUserDevice; simpl.
  destruct email; [contradiction | reflexivity].
Qed.

(** C1, amended: of two device fetches issued by consecutive selection
    changes (first for [a], then for [b], before the first settles), the
    list shown is that of the response that arrives last. When the
    response for [a] arrives after the one for [b], or while the one for
    [b] is still pending, the list is [a]'s although the selection is [b];
    the list is [b]'s when the response for [b] arrives after the one for
    [a]. *)
Theorem last_settled_response_wins (env : ProcessEnv) (s : State)
  (a b : string) (ra rb : Response Devices) :
  body_mounted s = true -> activeUser s <> Some a ->
  a <> "" -> b <> "" -> a <> b ->
  let ida := length (network s) in
  let idb := S (length (network s)) in
  let s2 := run env s [SetActiveUser (Some a); SetActiveUser (Some b)] in
  network s2 = (network s ++ [devices_request env a; devices_request env b])%list /\
  activeUser s2 = Some b /\
  (let s' := run env s2 [DevicesSettled idb (Fulfilled rb);
                         DevicesSettled ida (Fulfilled ra)] in
   userDevices s' = Some (devices (data (data ra))) /\ activeUser s' = Some b) /\
  (let s' := run env s2 [DevicesSettled ida (Fulfilled ra)] in
   userDevices s' = Some (devices (data (data ra))) /\ activeUser s' = Some b) /\
  (let s' := run env s2 [DevicesSettled ida (Fulfilled ra);
                         DevicesSettled idb (Fulfilled rb)] in
   userDevices s' = Some (devices (data (data rb))) /\ activeUser s' = Some b).
Proof.
  intros Hm Ha Hae Hbe Hab ida idb s2.
  assert (Hs2 : s2 =
    set_inflight (<[idb := b]> (<[ida := a]> (inflight s)))
      (send (devices_request env b)
         (send (devices_request env a) (setActiveUser (Some b) s)))).
  { subst s2. unfold run; simpl. rewrite (select_issues env s a Hm Hae Ha).
    rewrite select_issues; [| exact Hm | exact Hbe | simpl; congruence].
    simpl. unfold set_inflight, send, setActiveUser; simpl.
    rewrite length_app, <- app_assoc; simpl.
    replace (length (network s) + 1)%nat with idb by (subst idb; lia).
    reflexivity. }
  assert (Hne : ida <> idb) by (subst ida idb; lia).
  rewrite Hs2. unfold run; simpl.
  rewrite lookup_insert_eq; simpl.
  rewrite lookup_delete_ne, lookup_insert_ne, !lookup_insert_eq by congruence; simpl.
  rewrite lookup_delete_ne, lookup_insert_eq by congruence. simpl.
  repeat split; rewrite <- app_assoc; reflexivity.
Qed.

Lemma last_settled_response_wins_witness :
  let s := run some_key initial loaded in
  let s2 :=
    run some_key s
      [SetActiveUser (Some "a@x.com"); SetActiveUser (Some "b@x.com")] in
  let s' :=
    run some_key s2
      [ DevicesSettled (S (length (network s))) (Fulfilled devices_of_b);
        DevicesSettled (length (network s)) (Fulfilled devices_of_a) ] in
  body_mounted s = true /\
  activeUser s <> Some "a@x.com" /\
  userDevices s' = Some (devices (data (data devices_of_a))) /\
  activeUser s' = Some "b@x.com".
Proof.
  assert (Hm : body_mounted (run some_key initial loaded) = true)
    by (vm_compute; reflexivity).
  assert (Ha : activeUser (run some_key initial loaded) <> Some "a@x.com")
    by (vm_compute; discriminate).
  destruct (last_settled_response_wins some_key (run some_key initial loaded)
              "a@x.com" "b@x.com" devices_of_a devices_of_b Hm Ha
              ltac:(discriminate) ltac:(discriminate) ltac:(discriminate))
    as (_ & _ & Hu & _).
  cbv zeta. split; [exact Hm | split; [exact Ha | exact Hu]].
Defined.

(** The claim C1 as stated fails: the fetch for "a@x.com" is issued, then
    the fetch for "b@x.com"; the response for "b@x.com" arrives first and
    the one for "a@x.com" last. The selection is "b@x.com" and the list
    shown is the one of "a@x.com". *)
Lemma stale_response_overwrites :
  let s :=
    run some_key initial
      (loaded ++ [ SetActiveUser (Some "a@x.com");
                   SetActiveUser (Some "b@x.com");
                   DevicesSettled 4 (Fulfilled devices_of_b);
                   DevicesSettled 3 (Fulfilled devices_of_a) ]) in
  body <$> network s !! 3%nat = Some (Some (DevicesQuery ["a@x.com"])) /\
  body <$> network s !! 4%nat = Some (Some (DevicesQuery ["b@x.com"])) /\
  activeUser s = Some "b@x.com" /\
  userDevices s = Some (devices (data (data devices_of_a))) /\
  userDevices s <> Some (devices (data (data devices_of_b))) /\
  userDevices s <> None.
Proof. cbv zeta. repeat split; try reflexivity; vm_compute; discriminate. Qed.

(** C6: when a device request in flight is rejected, the error is logged
    on the console and nothing else changes: [dashlaneInfo] (team, series,
    members), the error flag, the device list and the selection keep their
    values, and so does what [App] shows. *)
Theorem device_failure_is_isolated (env : ProcessEnv) (s : State) (id : nat)
  (email : string) (e : AxiosError) :
  inflight s !! id = Some email ->
  let s' := step env s (DevicesSettled id (Rejected e)) in
  console s' = (console s ++ [("Failed to fetch user devices:", e)])%list /\
  dashlaneInfo s' = dashlaneInfo s /\
  hasError s' = hasError s /\
  userDevices s' = userDevices s /\
  activeUser s' = activeUser s /\
  load s' = load s /\
  network s' = network s /\
  App s' = App s.
Proof. intros H. simpl. rewrite H. repeat split. Qed.

Lemma device_failure_is_isolated_witness :
  let s :=
    run some_key initial
      (loaded ++ [ SetActiveUser (Some "a@x.com");
                   DevicesSettled 3 (Fulfilled devices_of_a);
                   SetActiveUser (Some "b@x.com") ]) in
  let s' := step some_key s (DevicesSettled 4 (Rejected NetworkError)) in
  inflight s !! 4%nat = Some "b@x.com" /\
  userDevices s' = Some [device "a-laptop"] /\
  console s' = [("Failed to fetch user devices:", NetworkError)].
Proof.
  cbv zeta. split; [reflexivity |].
  destruct (device_failure_is_isolated some_key
              (run some_key initial
                 (loaded ++ [ SetActiveUser (Some "a@x.com");
                              DevicesSettled 3 (Fulfilled devices_of_a);
                              SetActiveUser (Some "b@x.com") ]))
              4 "b@x.com" NetworkError eq_refl) as (Hc & _ & _ & Hu & _).
  split; [rewrite Hu | rewrite Hc]; reflexivity.
Defined.

(** The claim C4 as stated fails: with the devices of "a@x.com" on screen,
    setting the selection to null sends no request, and the list stays. *)
Lemma null_selection_keeps_devices :
  let s :=
    run some_key initial
      (loaded ++ [ SetActiveUser (Some "a@x.com");
                   DevicesSettled 3 (Fulfilled devices_of_a) ]) in
  let s' := step some_key s (SetActiveUser None) in
  activeUser s = Some "a@x.com" /\
  activeUser s' = None /\
  network s' = network s /\
  userDevices s' = Some [device "a-laptop"] /\
  DevicesInfo (userDevices s') <> None /\
  DevicesInfo (userDevices s') <> Some [].
Proof. cbv zeta. repeat split; try reflexivity; vm_compute; discriminate. Qed.

(** C4, amended: when the selection is set to null (or to the empty
    string), no request is sent, none is added to those in flight, and the
    device list keeps the value it had; it is empty only if it was. *)
Theorem empty_selection_no_request (env : ProcessEnv) (s : State)
  (v : option string) :
  v = None \/ v = Some "" ->
  let s' := step env s (SetActiveUser v) in
  network s' = network s /\
  inflight s' = inflight s /\
  userDevices s' = userDevices s /\
  (body_mounted s = true -> activeUser s' = v).
Proof.
  intros Hv. simpl. unfold select.
  destruct (body_mounted s); [| repeat split; discriminate].
  destruct (decide (v = activeUser s)) as [E|_]; [repeat split; auto |].
  destruct Hv as [-> | ->]; repeat split.
Qed.

Lemma empty_selection_no_request_witness :
  let s :=
    run some_key initial
      (loaded ++ [ SetActiveUser (Some "a@x.com");
                   DevicesSettled 3 (Fulfilled devices_of_a) ]) in
  let s' := step some_key s (SetActiveUser None) in
  network s' = network s /\ userDevices s' = userDevices s.
Proof.
  destruct (empty_selection_no_request some_key
              (run some_key initial
                 (loaded ++ [ SetActiveUser (Some "a@x.com");
                              DevicesSettled 3 (Fulfilled devices_of_a) ]))
              None (or_introl eq_refl)) as (Hn & _ & Hu & _).
  split; assumption.
Defined.

(** ** The bearer credential *)

(** Every request in the network log carries the client's headers. *)
Lemma step_by_client (env : ProcessEnv) (s : State) (ev : Event) :
  Forall (by_client env) (network s) ->
  Forall (by_client env) (network (step env s ev)).
Proof.
  intros H.
  destruct ev as [ |r|r|r|v|row|id r]; simpl;
    unfold settle, resume, reject, select, click, select, fetchUserDevice,
      fetchUserDevice_resume;
    repeat case_match; simpl; auto;
    repeat (apply Forall_app; split); auto;
    apply Forall_singleton; reflexivity.
Qed.

Lemma run_by_client (env : ProcessEnv) (evs : list Event) (s : State) :
  Forall (by_client env) (network s) ->
  Forall (by_client env) (network (run env s evs)).
Proof.
  revert s. induction evs as [|ev evs IH]; intros s H; [exact H |].
  apply IH, step_by_client, H.
Qed.

(** The claim C5 as stated fails: without the credential the three
    initial requests are sent as soon as the page mounts; when the service
    answers them the calls succeed and the dashboard is populated; when it
    refuses one, the error is the transport's. *)
Lemma absent_token_calls_succeed :
  let sent := run no_key initial [Mount] in
  let s := run no_key initial loaded in
  let refused :=
    run no_key initial [Mount; StatusSettled (Rejected (BadStatus 401))] in
  AUTH_TOKEN no_key = None /\
  map url (network sent) =
    [ "/dashlane-api/public/teams/Status";
      "/dashlane-api/public/teams/PasswordHealth";
      "/dashlane-api/public/teams/Members" ] /\
  console sent = [] /\
  hasError s = false /\
  console s = [] /\
  dashlaneInfo s = Some (assemble (respond sample_team) (respond sample_health)
                           (respond sample_users)) /\
  console refused = [("Failed to fetch Dashlane info:", BadStatus 401)].
Proof. cbv zeta. repeat split. Qed.

(** C5, amended: when the credential is absent the client is created all
    the same, with the header "Authorization: Bearer undefined"; the three
    initial requests are sent on mount and every request ever sent carries
    that header; a call whose promise is fulfilled succeeds, so that three
    fulfilled initial calls populate the dashboard with no error. *)
Theorem absent_token_requests_still_sent (env : ProcessEnv) :
  AUTH_TOKEN env = None ->
  headers (api env) = [("Authorization", "Bearer undefined")] /\
  network (run env initial [Mount]) =
    [ post (api env) "/Status" None;
      post (api env) "/PasswordHealth" None;
      post (api env) "/Members" (Some (MembersQuery 0 "ASC" "email" 100)) ] /\
  (forall evs r,
     r ∈ network (run env initial evs) ->
     header "Authorization" (req_headers r) = Some "Bearer undefined") /\
  (forall t h u,
     let s := run env initial
                [ Mount; StatusSettled (Fulfilled t);
                  PasswordHealthSettled (Fulfilled h);
                  MembersSettled (Fulfilled u) ] in
     hasError s = false /\ console s = [] /\
     dashlaneInfo s = Some (assemble t h u)).
Proof.
  intros Hk.
  assert (Hh : headers (api env) = [("Authorization", "Bearer undefined")])
    by (unfold api; rewrite Hk; reflexivity).
  split; [exact Hh |]. split; [reflexivity |]. split.
  - intros evs r Hr.
    pose proof (run_by_client env evs initial (Forall_nil_2 _)) as Hall.
    rewrite Forall_forall in Hall. rewrite (Hall r Hr), Hh. reflexivity.
  - intros t h u. repeat split.
Qed.

Lemma absent_token_requests_still_sent_witness :
  AUTH_TOKEN no_key = None /\
  headers (api no_key) = [("Authorization", "Bearer undefined")].
Proof.
  split; [reflexivity |].
  exact (proj1 (absent_token_requests_still_sent no_key eq_refl)).
Defined.

(** * Further properties *)

(** ** More on the order of numbers *)

Ltac compare_cases :=
  repeat match goal with
  | |- context [Z.compare ?a ?b] =>
      destruct (Z.compare_spec a b); subst
  | |- context [Pos.compare_cont Eq ?a ?b] =>
      change (Pos.compare_cont Eq a b) with (Pos.compare a b);
      destruct (Pos.compare_spec a b); subst
  end.

Lemma SFleb_trans (a b c : spec_float) :
  SFleb a b = true -> SFleb b c = true -> SFleb a c = true.
Proof.
  unfold SFleb.
  destruct a as [sa|sa| |sa ma ea], b as [sb|sb| |sb mb eb],
    c as [sc|sc| |sc mc ec]; simpl; try congruence;
    repeat match goal with s : bool |- _ => destruct s end;
    simpl; try congruence;
    compare_cases; simpl; try congruence; lia.
Qed.

Lemma ge_trans (a b c : Js.number) :
  Js.ge a b = true -> Js.ge b c = true -> Js.ge a c = true.
Proof.
  unfold Js.ge. rewrite !leb_spec. intros H1 H2.
  exact (SFleb_trans _ _ _ H2 H1).
Qed.

Lemma nan_not_ge (s c : Js.number) :
  PrimFloat.is_nan s = true -> Js.ge s c = false.
Proof.
  unfold PrimFloat.is_nan, Js.ge. rewrite FloatAxioms.eqb_spec, leb_spec.
  unfold SFeqb, SFleb.
  destruct (Prim2SF s) as [sg|sg| |sg m e], (Prim2SF c) as [sc|sc| |sc mc ec];
    simpl; try reflexivity; try (destruct sg; discriminate);
    try discriminate.
  all: destruct sg; simpl; rewrite Z.compare_refl; 
    change (Pos.compare_cont Eq m m) with (Pos.compare m m);
    rewrite Pos.compare_refl; discriminate.
Qed.

(** ** Scores and colours *)

(** X15: [getScoreColor] is monotone: a score at least as large as another
    never gets a worse colour (red below orange below green). *)
Theorem getScoreColor_monotone (a b : Js.number) :
  Js.ge b a = true -> rank (getScoreColor a) <= rank (getScoreColor b).
Proof.
  intros Hab. unfold getScoreColor.
  destruct (Js.ge a 0.8%float) eqn:Ha8.
  - rewrite (ge_trans _ _ _ Hab Ha8). reflexivity.
  - destruct (Js.ge a 0.6%float) eqn:Ha6.
    + rewrite (ge_trans _ _ _ Hab Ha6).
      destruct (Js.ge b 0.8%float); simpl; lia.
    + simpl. lia.
Qed.

Lemma getScoreColor_monotone_witness :
  Js.ge 0.85%float 0.61%float = true /\
  rank (getScoreColor 0.61%float) <= rank (getScoreColor 0.85%float).
Proof.
  split; [reflexivity |].
  apply (getScoreColor_monotone 0.61%float 0.85%float). reflexivity.
Defined.

(** X16: outside [0,1] [getScoreColor] still answers: green from 1
    upwards, red for a negative score, and red for NaN. *)
Theorem getScoreColor_out_of_range (s : Js.number) :
  (Js.ge s 1%float = true -> getScoreColor s = green) /\
  (Js.lt s 0%float = true -> getScoreColor s = red) /\
  (PrimFloat.is_nan s = true -> getScoreColor s = red).
Proof.
  unfold getScoreColor. repeat split.
  - intros H. rewrite (ge_trans s 1%float 0.8%float H eq_refl). reflexivity.
  - intros H. pose proof (lt_not_ge _ _ H) as Hn.
    destruct (Js.ge s 0.8%float) eqn:H8;
      [rewrite (ge_trans s _ 0%float H8 eq_refl) in Hn; discriminate |].
    destruct (Js.ge s 0.6%float) eqn:H6;
      [rewrite (ge_trans s _ 0%float H6 eq_refl) in Hn; discriminate |].
    reflexivity.
  - intros H. rewrite !(nan_not_ge s _ H). reflexivity.
Qed.

(** X17: for a current point whose score is a whole number from 0 to 100,
    [HealthScoreDetails] divides by 100 and colours the score green from
    80, orange from 60 to 79, red below 60. *)
Theorem HealthScoreDetails_whole_scores (h : list HealthScorePoint)
  (c : HealthScorePoint) (n : nat) :
  n <= 100 -> score c = whole n ->
  summary_color <$> HealthScoreDetails (h ++ [c]) = Some (band n).
Proof.
  intros Hn Hc. rewrite HealthScoreDetails_current. simpl. rewrite Hc. f_equal.
  assert (Hall : forallb (fun k =>
            same_color (getScoreColor (PrimFloat.div (whole k) 100%float))
                       (band k)) (seq 0 101) = true)
    by (vm_compute; reflexivity).
  rewrite forallb_forall in Hall.
  assert (Hin : In n (seq 0 101)) by (apply in_seq; lia).
  specialize (Hall n Hin).
  unfold same_color in Hall. apply Nat.eqb_eq in Hall.
  destruct (getScoreColor _), (band n); simpl in Hall; congruence.
Qed.

Lemma HealthScoreDetails_whole_scores_witness :
  summary_color <$> HealthScoreDetails [point (Some "Oct") 70%float; point None 80%float]
  = Some green.
Proof.
  apply (HealthScoreDetails_whole_scores [point (Some "Oct") 70%float]
           (point None 80%float) 80); [lia | reflexivity].
Defined.

(** X18: [HealthScoreDetails] fails (it reads a field of [undefined])
    exactly on the empty series. *)
Theorem HealthScoreDetails_empty (healthscore : list HealthScorePoint) :
  HealthScoreDetails healthscore = None <-> healthscore = [].
Proof.
  unfold HealthScoreDetails. split.
  - destruct (last healthscore) eqn:E; [discriminate |].
    intros _. apply last_None. exact E.
  - intros ->. reflexivity.
Qed.

(** ** Rows and ticks *)

Lemma or_string_default (v : option string) (d : string) :
  d <> "" ->
  Js.or_string v d <> "" /\
  (Js.or_string v d = d <-> v = None \/ v = Some "" \/ v = Some d).
Proof.
  intros Hd. destruct v as [[|c s]|]; simpl.
  - split; [exact Hd | split; auto].
  - split; [discriminate | split].
    + intros H. right; right. f_equal. exact H.
    + intros [H|[H|H]]; try discriminate. injection H; auto.
  - split; [exact Hd | split; auto].
Qed.

Lemma or_string_dash (v : option string) :
  Js.or_string v "-" <> "" /\
  (Js.or_string v "-" = "-" <-> v = None \/ v = Some "" \/ v = Some "-").
Proof. apply or_string_default. discriminate. Qed.

(** X19: [DevicesInfo] renders nothing exactly for [null]; for an array,
    even an empty one, it renders one row per device, in order; name and
    platform are shown as they are, and the version, model and OS cells are
    never blank: "-" stands for an absent or empty value. *)
Theorem DevicesInfo_rows (userDevices : option (list Device.t)) :
  (DevicesInfo userDevices = None <-> userDevices = None) /\
  (forall ds, userDevices = Some ds ->
     exists rows,
       DevicesInfo userDevices = Some rows /\
       length rows = length ds /\
       forall i d, ds !! i = Some d ->
         exists r, rows !! i = Some r /\
           device_name r = Device.name d /\
           device_platform r = Device.platform d /\
           device_appVersion r <> "" /\ device_model r <> "" /\
           device_osVersion r <> "" /\
           (device_appVersion r = "-" <->
              Device.appVersion d = None \/ Device.appVersion d = Some "" \/
              Device.appVersion d = Some "-")).
Proof.
  split.
  - destruct userDevices; simpl; split; (discriminate || reflexivity).
  - intros ds ->. exists (map UserDevice ds). split; [reflexivity |].
    split; [apply length_map |]. intros i d Hd. exists (UserDevice d).
    split; [change (map UserDevice ds) with (UserDevice <$> ds);
            rewrite list_lookup_fmap, Hd; reflexivity |].
    unfold UserDevice; simpl. repeat split; try apply or_string_dash.
Qed.

(** X20: in a member's row, the status "accepted" is shown as "Dashlane
    user" with the invited style and a devices button; any other status is
    shown as it is, with the other style and no button; the authentication
    cell is "Email token" for "email_token" and "-" for anything else. *)
Theorem UserProfile_status (user : Member.t) :
  let r := UserProfile user in
  cell_email r = Member.email user /\
  cell_role r = getUserRole (Member.role user) /\
  (Member.status user = "accepted" ->
   cell_status r = "Dashlane user" /\ cell_button r = true /\
   cell_status_class r = "type type--invited") /\
  (Member.status user <> "accepted" ->
   cell_status r = Member.status user /\ cell_button r = false /\
   cell_status_class r = "type type--not_invited") /\
  (Member.type (Member.authentication user) = "email_token" ->
   cell_authentication r = "Email token") /\
  (Member.type (Member.authentication user) <> "email_token" ->
   cell_authentication r = "-").
Proof.
  unfold UserProfile; simpl.
  split; [reflexivity |]. split; [reflexivity |].
  split; [intros H; rewrite H; repeat split; reflexivity |].
  split; [intros H; apply String.eqb_neq in H; rewrite H; repeat split;
          reflexivity |].
  split; intros H; [| apply String.eqb_neq in H]; rewrite H; reflexivity.
Qed.

(** X21: a tick's label is never empty; the text is anchored at its end
    exactly when the label is "Now" and at its start otherwise; and the
    label is "Now" exactly when the value is absent, empty or "Now". *)
Theorem CustomizedAxisTick_anchor (props : TickProps) :
  let t := CustomizedAxisTick props in
  label t <> "" /\
  translate t = (x props, y props) /\
  (textAnchor t = "end" <-> label t = "Now") /\
  (textAnchor t = "start" <-> label t <> "Now") /\
  (label t = "Now" <->
     value (payload props) = None \/ value (payload props) = Some "" \/
     value (payload props) = Some "Now").
Proof.
  unfold CustomizedAxisTick; simpl.
  set (l := Js.or_string (value (payload props)) "Now").
  assert (Hl : l <> "" /\
    (l = "Now" <-> value (payload props) = None \/
       value (payload props) = Some "" \/ value (payload props) = Some "Now")).
  { subst l. apply or_string_default. discriminate. }
  destruct Hl as [Hne Hnow].
  split; [exact Hne |]. split; [reflexivity |].
  split; [| split; [| exact Hnow]];
    destruct (String.eqb_spec l "Now") as [E|E]; split; intros H;
    try reflexivity; try discriminate; try assumption; contradiction.
Qed.

Lemma imap_labels {A} (f : nat -> A -> TickText) (g : A -> string) (l : list A) :
  (forall i a, label (f i a) = g a) -> map label (imap f l) = map g l.
Proof.
  revert f. induction l as [|a l IH]; intros f H; [reflexivity |].
  simpl. rewrite H. f_equal. apply IH. intros i b. apply H.
Qed.

Lemma drawn_from_app (visible : nat -> bool) (a : nat)
  (l1 l2 : list HealthScorePoint) :
  drawn_from visible a (l1 ++ l2) =
    (drawn_from visible a l1 ++ drawn_from visible (a + length l1) l2)%list.
Proof.
  revert a. induction l1 as [|p l1 IH]; intros a; simpl.
  - rewrite Nat.add_0_r. reflexivity.
  - rewrite IH, Nat.add_succ_r. destruct (visible a); reflexivity.
Qed.

Lemma drawn_from_Forall (P : HealthScorePoint -> Prop) (visible : nat -> bool)
  (a : nat) (l : list HealthScorePoint) :
  Forall P l -> Forall P (drawn_from visible a l).
Proof.
  intros H. revert a. induction H as [|p l Hp Hl IH]; intros a; simpl;
    [constructor |].
  destruct (visible a); [constructor; [exact Hp |] |]; apply IH.
Qed.

(** X22: when every point of the history has a non-empty name and the
    current point has none, the ticks drawn show, in order, the names of
    the history points that get a tick, followed by "Now" exactly when the
    current point gets one. *)
Theorem XAxis_now_is_last (place : nat -> Js.number * Js.number)
  (visible : nat -> bool) (h : list HealthScorePoint) (c : HealthScorePoint) :
  Forall (fun p => exists n, name p = Some n /\ n <> "") h ->
  name c = None \/ name c = Some "" ->
  map label (XAxis place visible (chart_data (h ++ [c])))
    = (map (fun p => default "" (name p)) (drawn_from visible 0 h) ++
       (if visible (length h) then ["Now"] else []))%list.
Proof.
  intros Hh Hc. unfold XAxis, chart_data.
  rewrite (imap_labels _ (fun p => Js.or_string (name p) "Now"))
    by reflexivity.
  rewrite drawn_from_app, map_app. f_equal.
  - apply map_ext_Forall.
    eapply Forall_impl; [apply drawn_from_Forall, Hh |].
    intros p (n & Hn & Hne). simpl. rewrite Hn. simpl.
    destruct n; [contradiction | reflexivity].
  - rewrite Nat.add_0_l. simpl. destruct (visible (length h)); [| reflexivity].
    simpl. destruct Hc as [-> | ->]; reflexivity.
Qed.

Lemma XAxis_now_is_last_witness :
  map label (XAxis (fun _ => (0%float, 0%float)) (fun i => negb (Nat.eqb i 0))
               (chart_data [point (Some "Sep") 70%float;
                            point (Some "Oct") 75%float; point None 82%float]))
  = ["Oct"; "Now"].
Proof.
  refine (XAxis_now_is_last (fun _ => (0%float, 0%float))
            (fun i => negb (Nat.eqb i 0))
            [point (Some "Sep") 70%float; point (Some "Oct") 75%float]
            (point None 82%float) _ (or_introl eq_refl)).
  repeat constructor; eexists; (split; [reflexivity | discriminate]).
Defined.

(** ** The states the page can reach *)

Lemma idle_not_mounted (s : State) : idle s -> body_mounted s = false.
Proof.
  intros (Hd & _). unfold body_mounted. rewrite Hd.
  rewrite bool_decide_eq_false_2; [apply andb_false_r |].
  intros [x Hx]; discriminate.
Qed.

Lemma shape_settle {A} (env : ProcessEnv) (slot : Join -> option A)
  (fill : A -> Join -> Join) (r : Settled A) (s : State) :
  (forall v j, got_team (fill v j) = None \/ got_healthscore (fill v j) = None \/
               got_users (fill v j) = None \/
               exists t h u, got_team (fill v j) = Some t /\
                             got_healthscore (fill v j) = Some h /\
                             got_users (fill v j) = Some u) ->
  reachable_shape env s -> reachable_shape env (settle slot fill r s).
Proof.
  intros Hfill H. unfold settle.
  destruct (load s) as [ |j| ] eqn:Hl; [exact H | | exact H].
  destruct (slot j); [exact H |].
  unfold reachable_shape in H. rewrite Hl in H.
  destruct H as (_ & (Hd & Hu & Ha & Hi) & He & Hn & Hc).
  destruct r as [v|e].
  - unfold resume, reachable_shape.
    destruct (Hfill v j) as [E|[E|[E|(t & h & u & Et & Eh & Eu)]]].
    + rewrite E. simpl. repeat split; auto.
    + rewrite E. destruct (got_team (fill v j)); simpl; repeat split; auto.
    + rewrite E. destruct (got_team (fill v j)), (got_healthscore (fill v j));
        simpl; repeat split; auto.
    + rewrite Et, Eh, Eu. simpl. right. unfold showing; simpl.
      split; [exact He |]. split; [eexists; reflexivity |].
      split; [exists []; split; [exact Hn | constructor] |].
      split; [intros id e; rewrite Hi, lookup_empty; discriminate |].
      rewrite Hc. constructor.
  - unfold reject, reachable_shape; simpl. left.
    repeat split; auto. exists e. rewrite Hc. reflexivity.
Qed.

Lemma shape_select (env : ProcessEnv) (v : option string) (s : State) :
  reachable_shape env s -> reachable_shape env (select env v s).
Proof.
  intros H. unfold select.
  destruct (body_mounted s) eqn:Hm; [| exact H].
  destruct (decide (v = activeUser s)) as [_|_]; [exact H |].
  unfold reachable_shape in *.
  destruct (load s) as [ |j| ] eqn:Hl.
  - subst s. discriminate.
  - destruct H as (_ & Hidle & _). rewrite (idle_not_mounted _ Hidle) in Hm.
    discriminate.
  - destruct H as [(Hidle & _) | H];
      [rewrite (idle_not_mounted _ Hidle) in Hm; discriminate |].
    destruct H as (He & Hd & (emails & Hn & Hne) & Hin & Hc).
    assert (Hkeep : showing env (setActiveUser v s))
      by (unfold showing; simpl; split; [exact He |]; split; [exact Hd |];
          split; [exists emails; split; assumption |];
          split; assumption).
    unfold fetchUserDevice; simpl.
    destruct v as [email|]; [| simpl; rewrite Hl; right; exact Hkeep].
    destruct (Js.truthy_string email) eqn:Ht;
      [| simpl; rewrite Hl; right; exact Hkeep].
    simpl; rewrite Hl; right; unfold showing; simpl.
    split; [exact He |]. split; [exact Hd |]. split; [| split; [| exact Hc]].
    + exists (emails ++ [email])%list. split.
      * rewrite Hn, map_app. reflexivity.
      * apply Forall_app. split; [exact Hne |]. constructor; [| constructor].
        intros ->. discriminate.
    + intros id e. destruct (decide (id = length (network s))) as [->|Hid].
      * rewrite lookup_insert_eq. intros [= ->].
        rewrite lookup_app_r, Nat.sub_diag by lia. reflexivity.
      * rewrite lookup_insert_ne by congruence. intros Hi.
        rewrite lookup_app_l; [apply Hin, Hi |].
        apply lookup_lt_Some with (x := devices_request env e), Hin, Hi.
Qed.

Lemma shape_step (env : ProcessEnv) (s : State) (ev : Event) :
  reachable_shape env s -> reachable_shape env (step env s ev).
Proof.
  intros H. destruct ev as [ |r|r|r|v|row|id r]; simpl.
  - destruct (load s) eqn:Hl; try exact H.
    unfold reachable_shape in H. rewrite Hl in H. subst s.
    unfold reachable_shape; simpl. repeat split; auto.
  - apply shape_settle; [| exact H]. intros v j. unfold with_team; simpl.
    destruct (got_healthscore j), (got_users j); eauto 10.
  - apply shape_settle; [| exact H]. intros v j. unfold with_healthscore; simpl.
    destruct (got_team j), (got_users j); eauto 10.
  - apply shape_settle; [| exact H]. intros v j. unfold with_users; simpl.
    destruct (got_team j), (got_healthscore j); eauto 10.
  - apply shape_select, H.
  - unfold click. destruct (dashlaneInfo s); [| exact H].
    destruct (members (users d) !! row); [| exact H].
    destruct (String.eqb _ _); [apply shape_select, H | exact H].
  - destruct (inflight s !! id) as [email|] eqn:Hi; [| exact H].
    unfold reachable_shape in *. destruct (load s) as [ |j| ] eqn:Hl.
    + subst s. cbn [inflight initial] in Hi. rewrite lookup_empty in Hi.
      discriminate.
    + destruct H as (_ & (_ & _ & _ & He) & _). rewrite He, lookup_empty in Hi.
      discriminate.
    + destruct H as [((_ & _ & _ & He) & _) | H];
        [rewrite He, lookup_empty in Hi; discriminate |].
      destruct H as (He & Hd & Hn & Hin & Hc).
      assert (Hin' : forall id' e, delete id (inflight s) !! id' = Some e ->
                network s !! id' = Some (devices_request env e)).
      { intros id' e Hl'. apply Hin. apply lookup_delete_Some in Hl'. tauto. }
      destruct r as [resp|e]; simpl; rewrite Hl; right; unfold showing; simpl;
        repeat split; auto.
      apply Forall_app. split; [exact Hc |]. constructor; [reflexivity | constructor].
Qed.

Lemma shape_run (env : ProcessEnv) (evs : list Event) (s : State) :
  reachable_shape env s -> reachable_shape env (run env s evs).
Proof.
  revert s. induction evs as [|ev evs IH]; intros s H; [exact H |].
  apply IH, shape_step, H.
Qed.

Lemma shape_initial (env : ProcessEnv) : reachable_shape env initial.
Proof. reflexivity. Qed.

Lemma shape_no_data (env : ProcessEnv) (s : State) :
  reachable_shape env s -> dashlaneInfo s = None ->
  activeUser s = None /\ userDevices s = None /\ inflight s = ∅ /\
  (network s = [] \/ network s = initial_requests env).
Proof.
  intros H Hd. unfold reachable_shape in H.
  destruct (load s) as [ |j| ] eqn:Hl.
  - rewrite H. repeat split. left. reflexivity.
  - destruct H as (_ & (_ & Hu & Ha & Hi) & _ & Hn & _). auto.
  - destruct H as [((_ & Hu & Ha & Hi) & _ & Hn & _) | (_ & [x Hx] & _)].
    + auto.
    + rewrite Hx in Hd. discriminate.
Qed.

Lemma shape_network (env : ProcessEnv) (s : State) :
  reachable_shape env s ->
  (network s = [] /\ load s = NotStarted) \/
  exists emails,
    network s = (initial_requests env ++ map (devices_request env) emails)%list /\
    Forall (fun e => e <> "") emails.
Proof.
  intros H. unfold reachable_shape in H.
  destruct (load s) as [ |j| ] eqn:Hl.
  - left. rewrite H. split; reflexivity.
  - right. destruct H as (_ & _ & _ & Hn & _). exists [].
    split; [exact Hn | constructor].
  - right. destruct H as [(_ & _ & Hn & _) | (He & Hd & (emails & Hn & Hne) & _)].
    + exists []. split; [exact Hn | constructor].
    + exists emails. split; [exact Hn | exact Hne].
Qed.

(** X1: whatever happens, the requests sent are none at all before the
    page mounts, and afterwards the three initial ones, once and in this
    order, followed by device requests that each carry one non-empty email;
    no device request is sent while there is no dashboard data. *)
Theorem requests_sent (env : ProcessEnv) (evs : list Event) :
  let s := run env initial evs in
  (network s = [] /\ load s = NotStarted) \/
  exists emails,
    network s = (initial_requests env ++ map (devices_request env) emails)%list /\
    Forall (fun e => e <> "") emails /\
    (dashlaneInfo s = None -> emails = []).
Proof.
  intros s. pose proof (shape_run env evs initial (shape_initial env)) as H.
  fold s in H. destruct (shape_network env s H) as [Hn | (emails & Hn & Hne)];
    [left; exact Hn | right].
  exists emails. split; [exact Hn | split; [exact Hne |]].
  intros Hd. destruct (shape_no_data env s H Hd) as (_ & _ & _ & [E|E]);
    rewrite E in Hn.
  - discriminate Hn.
  - destruct emails; [reflexivity | discriminate Hn].
Qed.

(** X2: while there is no dashboard data (the page is loading or has
    failed), there is no selection, no device list and no device request
    in flight: selection events have no effect. *)
Theorem nothing_selected_before_data (env : ProcessEnv) (evs : list Event) :
  let s := run env initial evs in
  dashlaneInfo s = None ->
  activeUser s = None /\ userDevices s = None /\ inflight s = ∅ /\
  DevicesInfo (userDevices s) = None /\
  (network s = [] \/ network s = initial_requests env).
Proof.
  intros s Hd. pose proof (shape_run env evs initial (shape_initial env)) as H.
  fold s in H. destruct (shape_no_data env s H Hd) as (Ha & Hu & Hi & Hn).
  rewrite Hu. repeat split; auto.
Qed.

(** X3: the error flag is set exactly when a load failure is on the
    console, which is exactly when [App] shows the error; then the console
    holds that single entry and there is no dashboard data. Failed device
    requests never count as a load failure. *)
Theorem error_screen_iff_logged (env : ProcessEnv) (evs : list Event) :
  let s := run env initial evs in
  (hasError s = true <-> existsb load_failure (console s) = true) /\
  (hasError s = true <-> App s = FailedToFetch) /\
  (hasError s = true -> dashlaneInfo s = None /\ length (console s) = 1%nat).
Proof.
  intros s. pose proof (shape_run env evs initial (shape_initial env)) as H.
  fold s in H. unfold reachable_shape in H.
  assert (HA : hasError s = true <-> App s = FailedToFetch).
  { unfold App. destruct (hasError s); [tauto |].
    destruct (dashlaneInfo s); split; discriminate. }
  split; [| split; [exact HA |]].
  - destruct (load s) as [ |j| ] eqn:Hl.
    + rewrite H. simpl. split; discriminate.
    + destruct H as (_ & _ & He & _ & Hc). rewrite He, Hc. simpl.
      split; discriminate.
    + destruct H as [(_ & He & _ & (e & Hc)) | (He & _ & _ & _ & Hc)].
      * rewrite He, Hc. simpl. tauto.
      * rewrite He. split; [discriminate |]. intros Hex.
        apply existsb_exists in Hex. destruct Hex as (entry & Hin & Hf).
        rewrite Forall_forall in Hc. apply list_elem_of_In, Hc in Hin.
        unfold load_failure in Hf. rewrite Hin in Hf. discriminate.
  - intros He. destruct (load s) as [ |j| ] eqn:Hl.
    + rewrite H in He. discriminate.
    + destruct H as (_ & _ & He' & _). congruence.
    + destruct H as [((Hd & _) & _ & _ & (e & Hc)) | (He' & _)]; [| congruence].
      rewrite Hc. split; [exact Hd | reflexivity].
Qed.

Lemma not_initial_url (env : ProcessEnv) (e : string) (i : nat) :
  initial_requests env !! i <> Some (devices_request env e).
Proof.
  destruct i as [|[|[|i]]]; simpl; intros [= H]; discriminate H.
Qed.

Lemma inflight_request (env : ProcessEnv) (evs : list Event) (id : nat)
  (e : string) :
  inflight (run env initial evs) !! id = Some e ->
  showing env (run env initial evs) /\
  network (run env initial evs) !! id = Some (devices_request env e).
Proof.
  set (s := run env initial evs). intros Hi.
  pose proof (shape_run env evs initial (shape_initial env)) as H.
  fold s in H. unfold reachable_shape in H.
  assert (Hshow : showing env s).
  { destruct (load s) as [ |j| ] eqn:Hl.
    - rewrite H in Hi. cbn [inflight initial] in Hi. rewrite lookup_empty in Hi.
      discriminate.
    - destruct H as (_ & (_ & _ & _ & He) & _). rewrite He, lookup_empty in Hi.
      discriminate.
    - destruct H as [((_ & _ & _ & He) & _) | H]; [| exact H].
      rewrite He, lookup_empty in Hi. discriminate. }
  split; [exact Hshow |]. destruct Hshow as (_ & _ & _ & Hin & _).
  exact (Hin id e Hi).
Qed.

(** X4: a device request in flight is a request that was sent: its
    identifier is the position in the network log of the request for its
    email, after the three initial requests, and [Body] is on screen. *)
Theorem inflight_refers_to_request (env : ProcessEnv) (evs : list Event)
  (id : nat) (e : string) :
  let s := run env initial evs in
  inflight s !! id = Some e ->
  network s !! id = Some (devices_request env e) /\
  (3 <= id < length (network s))%nat /\
  body_mounted s = true.
Proof.
  intros s Hi. destruct (inflight_request env evs id e Hi) as [Hshow Hr].
  fold s in Hshow, Hr.
  destruct Hshow as (He & Hd & (emails & Hn & _) & _).
  split; [exact Hr |]. split; [split |].
  - destruct (le_lt_dec 3 id) as [Hle|Hlt]; [exact Hle |]. exfalso.
    rewrite Hn, lookup_app_l in Hr by (simpl; lia).
    exact (not_initial_url env e id Hr).
  - apply lookup_lt_Some with (x := devices_request env e), Hr.
  - unfold body_mounted. rewrite He, bool_decide_eq_true_2 by exact Hd.
    reflexivity.
Qed.

Lemma returned_is_final (env : ProcessEnv) (s : State) (ev : Event) :
  load s = Returned ->
  load (step env s ev) = Returned /\
  dashlaneInfo (step env s ev) = dashlaneInfo s /\
  hasError (step env s ev) = hasError s.
Proof.
  intros Hl.
  destruct ev as [ |r|r|r|v|row|id r]; simpl;
    unfold settle, click, select, fetchUserDevice, fetchUserDevice_resume;
    rewrite ?Hl; repeat case_match; simpl; auto.
Qed.

Lemma returned_stays (env : ProcessEnv) (evs : list Event) (s : State) :
  load s = Returned ->
  dashlaneInfo (run env s evs) = dashlaneInfo s /\
  hasError (run env s evs) = hasError s.
Proof.
  revert s. induction evs as [|ev evs IH]; intros s Hl; [auto |].
  destruct (returned_is_final env s ev Hl) as (Hl' & Hd & He).
  destruct (IH _ Hl') as [Hd' He']. simpl. split; congruence.
Qed.

(** X5: once the dashboard data is stored, no later event changes it or
    sets the error flag: [App] shows [Body] with that same data from then
    on. *)
Theorem dashboard_is_kept (env : ProcessEnv) (evs later : list Event)
  (info : DashlaneInfo) :
  let s := run env initial evs in
  let s' := run env s later in
  dashlaneInfo s = Some info ->
  dashlaneInfo s' = Some info /\ hasError s' = false /\
  App s' = BodyOf info (userDevices s').
Proof.
  intros s s' Hd. pose proof (shape_run env evs initial (shape_initial env)) as H.
  fold s in H. unfold reachable_shape in H.
  assert (Hl : load s = Returned /\ hasError s = false).
  { destruct (load s) as [ |j| ] eqn:Hl.
    - rewrite H in Hd. discriminate.
    - destruct H as (_ & (Hn & _) & _). congruence.
    - destruct H as [((Hn & _) & _) | (He & _)]; [congruence | auto]. }
  destruct Hl as [Hl He].
  destruct (returned_stays env later s Hl) as [Hd' He']. fold s' in Hd', He'.
  assert (E1 : dashlaneInfo s' = Some info) by congruence.
  assert (E2 : hasError s' = false) by congruence.
  split; [exact E1 | split; [exact E2 |]].
  unfold App. rewrite E2, E1. reflexivity.
Qed.

(** ** Where the state comes from *)

Lemma run_snoc (env : ProcessEnv) (s : State) (evs : list Event) (ev : Event) :
  run env s (evs ++ [ev]) = step env (run env s evs) ev.
Proof. unfold run. rewrite fold_left_app. reflexivity. Qed.

Lemma joined_more (evs : list Event) (ev : Event) (j : Join) :
  joined evs j -> joined (evs ++ [ev]) j.
Proof.
  intros (H1 & H2 & H3).
  repeat split; intros x Hx; apply elem_of_app; left; auto.
Qed.

Lemma from_responses_more (evs : list Event) (ev : Event) (s : State) :
  from_responses evs s -> from_responses (evs ++ [ev]) s.
Proof.
  intros (Hm & Hj & Hd). split; [| split].
  - intros Hl. apply elem_of_app. left. apply Hm, Hl.
  - intros j Hl. apply joined_more, Hj, Hl.
  - intros info Hi. destruct (Hd info Hi) as (t & h & u & Hjoin & E).
    exists t, h, u. split; [apply joined_more, Hjoin | exact E].
Qed.

Lemma from_responses_same (evs : list Event) (s s' : State) :
  load s' = load s -> dashlaneInfo s' = dashlaneInfo s ->
  from_responses evs s -> from_responses evs s'.
Proof. unfold from_responses, assembled. intros -> ->. tauto. Qed.

Lemma select_keeps_load (env : ProcessEnv) (v : option string) (s : State) :
  load (select env v s) = load s /\
  dashlaneInfo (select env v s) = dashlaneInfo s /\
  hasError (select env v s) = hasError s /\
  userDevices (select env v s) = userDevices s.
Proof.
  unfold select, fetchUserDevice. repeat case_match; simpl; auto.
Qed.

Lemma click_keeps_load (env : ProcessEnv) (row : nat) (s : State) :
  load (click env row s) = load s /\
  dashlaneInfo (click env row s) = dashlaneInfo s /\
  hasError (click env row s) = hasError s /\
  userDevices (click env row s) = userDevices s.
Proof.
  unfold click. destruct (dashlaneInfo s) as [info|] eqn:Hd; [| auto].
  destruct (members (users info) !! row) as [user|]; [| auto].
  destruct (String.eqb _ _); [| auto].
  rewrite <- Hd. apply select_keeps_load.
Qed.

Lemma from_responses_resume (evs : list Event) (j : Join) (s : State) :
  Mount ∈ evs -> joined evs j -> assembled evs s ->
  from_responses evs (resume j s).
Proof.
  intros Hm Hj Hd. unfold resume.
  destruct (got_team j) as [t|] eqn:Et;
    [destruct (got_healthscore j) as [h|] eqn:Eh;
       [destruct (got_users j) as [u|] eqn:Eu |] |].
  - split; [intros _; exact Hm | split; [discriminate |]].
    intros info [= <-]. exists t, h, u. split; [| reflexivity].
    destruct Hj as (H1 & H2 & H3). rewrite Et in H1. rewrite Eh in H2.
    rewrite Eu in H3. repeat split; assumption.
  - split; [intros _; exact Hm | split; [| exact Hd]].
    intros j' [= <-]. exact Hj.
  - split; [intros _; exact Hm | split; [| exact Hd]].
    intros j' [= <-]. exact Hj.
  - split; [intros _; exact Hm | split; [| exact Hd]].
    intros j' [= <-]. exact Hj.
Qed.

Lemma from_responses_settle {A} (evs : list Event) (slot : Join -> option A)
  (fill : A -> Join -> Join) (r : Settled A) (s : State) :
  (forall v j, r = Fulfilled v -> joined evs j -> joined evs (fill v j)) ->
  from_responses evs s -> from_responses evs (settle slot fill r s).
Proof.
  intros Hfill H. unfold settle.
  destruct (load s) as [ |j| ] eqn:Hl; try exact H.
  destruct (slot j); [exact H |].
  destruct H as (Hm & Hj & Hd).
  assert (Hmount : Mount ∈ evs) by (apply Hm; rewrite Hl; discriminate).
  destruct r as [v|e].
  - apply from_responses_resume; auto.
  - split; [intros _; exact Hmount | split; [discriminate | exact Hd]].
Qed.

Lemma from_responses_step (env : ProcessEnv) (evs : list Event) (ev : Event)
  (s : State) :
  from_responses evs s -> from_responses (evs ++ [ev]) (step env s ev).
Proof.
  intros H. pose proof (from_responses_more evs ev s H) as H'.
  assert (Hnew : ev ∈ (evs ++ [ev])%list) by (apply elem_of_app; right; left).
  destruct ev as [ |r|r|r|v|row|id r]; simpl.
  - destruct (load s) eqn:Hl; try exact H'.
    destruct H' as (_ & _ & Hd).
    split; [intros _; exact Hnew | split; [| exact Hd]].
    simpl. intros j [= <-]. repeat split; discriminate.
  - apply from_responses_settle; [| exact H'].
    intros v j -> (H1 & H2 & H3). repeat split; simpl; auto.
    intros t [= <-]. exact Hnew.
  - apply from_responses_settle; [| exact H'].
    intros v j -> (H1 & H2 & H3). repeat split; simpl; auto.
    intros t [= <-]. exact Hnew.
  - apply from_responses_settle; [| exact H'].
    intros v j -> (H1 & H2 & H3). repeat split; simpl; auto.
    intros t [= <-]. exact Hnew.
  - destruct (select_keeps_load env v s) as (E1 & E2 & _).
    apply (from_responses_same _ s); auto.
  - destruct (click_keeps_load env row s) as (E1 & E2 & _).
    apply (from_responses_same _ s); auto.
  - destruct (inflight s !! id); [| exact H'].
    apply (from_responses_same _ s); [destruct r; reflexivity ..| exact H'].
Qed.

Lemma from_responses_run (env : ProcessEnv) (evs : list Event) :
  from_responses evs (run env initial evs).
Proof.
  induction evs as [|ev evs IH] using rev_ind.
  - split; [intros H; contradiction H; reflexivity | split]; discriminate.
  - rewrite run_snoc. apply from_responses_step, IH.
Qed.

Lemma settle_error {A} (slot : Join -> option A) (fill : A -> Join -> Join)
  (r : Settled A) (s : State) :
  hasError (settle slot fill r s) = true ->
  hasError s = true \/ is_rejected r = true.
Proof.
  unfold settle, resume. destruct r; simpl; [| auto].
  repeat case_match; simpl; auto.
Qed.

Lemma step_error (env : ProcessEnv) (s : State) (ev : Event) :
  hasError (step env s ev) = true ->
  hasError s = true \/ is_rejection ev = true.
Proof.
  destruct ev as [ |r|r|r|v|row|id r]; simpl.
  - destruct (load s); simpl; auto; discriminate.
  - intros H. destruct (settle_error _ _ _ _ H); destruct r; auto.
  - intros H. destruct (settle_error _ _ _ _ H); destruct r; auto.
  - intros H. destruct (settle_error _ _ _ _ H); destruct r; auto.
  - destruct (select_keeps_load env v s) as (_ & _ & -> & _). auto.
  - destruct (click_keeps_load env row s) as (_ & _ & -> & _). auto.
  - destruct (inflight s !! id); [destruct r |]; simpl; auto.
Qed.

Lemma error_from_rejection (env : ProcessEnv) (evs : list Event) :
  hasError (run env initial evs) = true ->
  exists ev, ev ∈ evs /\ is_rejection ev = true.
Proof.
  induction evs as [|ev evs IH] using rev_ind; [discriminate |].
  rewrite run_snoc. intros H. destruct (step_error _ _ _ H) as [He|He].
  - destruct (IH He) as (ev' & Hin & Hr). exists ev'.
    split; [apply elem_of_app; left; exact Hin | exact Hr].
  - exists ev. split; [apply elem_of_app; right; left | exact He].
Qed.

(** X6: dashboard data is stored only after the page mounted and each of
    the three initial calls was fulfilled, and it is assembled from those
    three responses; its series is never empty, so [HealthScoreDetails]
    finds the current point. *)
Theorem dashboard_from_three_responses (env : ProcessEnv) (evs : list Event)
  (info : DashlaneInfo) :
  dashlaneInfo (run env initial evs) = Some info ->
  Mount ∈ evs /\
  exists t h u,
    StatusSettled (Fulfilled t) ∈ evs /\
    PasswordHealthSettled (Fulfilled h) ∈ evs /\
    MembersSettled (Fulfilled u) ∈ evs /\
    info = assemble t h u /\
    last (healthscore info) = Some (current (data (data h))) /\
    summary_point <$> HealthScoreDetails (healthscore info)
      = Some (current (data (data h))).
Proof.
  intros Hd. destruct (from_responses_run env evs) as (Hm & _ & Ha).
  split.
  - apply Hm. intros Hl.
    pose proof (shape_run env evs initial (shape_initial env)) as Hs.
    unfold reachable_shape in Hs. rewrite Hl in Hs. rewrite Hs in Hd.
    discriminate.
  - destruct (Ha info Hd) as (t & h & u & (H1 & H2 & H3) & ->).
    exists t, h, u. repeat split; auto.
    + apply last_snoc.
    + simpl. rewrite HealthScoreDetails_current. reflexivity.
Qed.

(** X7: the error flag is raised only by a rejected initial call; and as
    long as no initial call was rejected and one of the three has not been
    fulfilled, [App] shows the loading screen. *)
Theorem loading_until_settled (env : ProcessEnv) (evs : list Event) :
  let s := run env initial evs in
  (hasError s = true -> exists ev, ev ∈ evs /\ is_rejection ev = true) /\
  (forallb (fun ev => negb (is_rejection ev)) evs = true ->
   (forall t, StatusSettled (Fulfilled t) ∉ evs) \/
   (forall h, PasswordHealthSettled (Fulfilled h) ∉ evs) \/
   (forall u, MembersSettled (Fulfilled u) ∉ evs) ->
   App s = Loading).
Proof.
  intros s. split; [apply error_from_rejection |].
  intros Hno Hmiss. unfold App.
  destruct (hasError s) eqn:He.
  - destruct (error_from_rejection env evs He) as (ev & Hin & Hr).
    rewrite forallb_forall in Hno. apply list_elem_of_In, Hno in Hin.
    rewrite Hr in Hin. discriminate.
  - destruct (dashlaneInfo s) as [info|] eqn:Hd; [| reflexivity].
    destruct (from_responses_run env evs) as (_ & _ & Ha).
    destruct (Ha info Hd) as (t & h & u & (H1 & H2 & H3) & _).
    destruct Hmiss as [Hm|[Hm|Hm]];
      [destruct (Hm t) | destruct (Hm h) | destruct (Hm u)]; auto.
Qed.

Lemma step_network_grows (env : ProcessEnv) (s : State) (ev : Event) :
  network s `prefix_of` network (step env s ev).
Proof.
  destruct ev as [ |r|r|r|v|row|id r]; simpl;
    unfold settle, resume, reject, click, select, fetchUserDevice,
      fetchUserDevice_resume;
    repeat case_match; simpl; try reflexivity;
    repeat (etrans; [| apply prefix_app_r; reflexivity]); reflexivity.
Qed.

Lemma step_devices (env : ProcessEnv) (s : State) (ev : Event)
  (ds : list Device.t) :
  userDevices (step env s ev) = Some ds ->
  userDevices s = Some ds \/
  exists id r e, ev = DevicesSettled id (Fulfilled r) /\
                 inflight s !! id = Some e /\
                 ds = devices (data (data r)).
Proof.
  destruct ev as [ |r|r|r|v|row|id r]; simpl.
  - destruct (load s); simpl; auto.
  - unfold settle, resume, reject. repeat case_match; simpl; auto.
  - unfold settle, resume, reject. repeat case_match; simpl; auto.
  - unfold settle, resume, reject. repeat case_match; simpl; auto.
  - destruct (select_keeps_load env v s) as (_ & _ & _ & ->). auto.
  - destruct (click_keeps_load env row s) as (_ & _ & _ & ->). auto.
  - destruct (inflight s !! id) as [e|] eqn:Hi; [| auto].
    destruct r as [r|err]; simpl; [| auto].
    intros [= <-]. right. exists id, r, e. auto.
Qed.

(** X8: the device list on screen is always the payload of a fulfilled
    response of the trace, to a device request that was sent. *)
Theorem devices_from_a_response (env : ProcessEnv) (evs : list Event)
  (ds : list Device.t) :
  let s := run env initial evs in
  userDevices s = Some ds ->
  exists id r e,
    DevicesSettled id (Fulfilled r) ∈ evs /\
    network s !! id = Some (devices_request env e) /\
    ds = devices (data (data r)).
Proof.
  cbv zeta. revert ds. induction evs as [|ev evs IH] using rev_ind;
    intros ds; [discriminate |].
  rewrite run_snoc. intros H.
  pose proof (step_network_grows env (run env initial evs) ev) as Hg.
  destruct (step_devices _ _ _ _ H) as [Hold | (id & r & e & -> & Hi & ->)].
  - destruct (IH ds Hold) as (id & r & e & Hin & Hn & E).
    exists id, r, e. split; [apply elem_of_app; left; exact Hin |].
    split; [| exact E]. eapply prefix_lookup_Some; eauto.
  - exists id, r, e. split; [apply elem_of_app; right; left |].
    split; [| reflexivity]. eapply prefix_lookup_Some; [| exact Hg].
    apply (inflight_request env evs id e Hi).
Qed.

Lemma step_devices_kept (env : ProcessEnv) (s : State) (ev : Event) :
  is_Some (userDevices s) -> is_Some (userDevices (step env s ev)).
Proof.
  intros H. destruct ev as [ |r|r|r|v|row|id r]; simpl.
  - destruct (load s); simpl; auto.
  - unfold settle, resume, reject. repeat case_match; simpl; auto.
  - unfold settle, resume, reject. repeat case_match; simpl; auto.
  - unfold settle, resume, reject. repeat case_match; simpl; auto.
  - destruct (select_keeps_load env v s) as (_ & _ & _ & ->). auto.
  - destruct (click_keeps_load env row s) as (_ & _ & _ & ->). auto.
  - destruct (inflight s !! id); [destruct r |]; simpl; eauto.
Qed.

(** X9: no event sets the device list back to [null]: once a list is
    shown, [DevicesInfo] renders a table from then on. *)
Theorem device_list_never_cleared (env : ProcessEnv) (evs : list Event)
  (s : State) :
  is_Some (userDevices s) ->
  is_Some (userDevices (run env s evs)) /\
  is_Some (DevicesInfo (userDevices (run env s evs))).
Proof.
  intros H.
  assert (Hs : is_Some (userDevices (run env s evs))).
  { revert s H. induction evs as [|ev evs IH]; intros s H; [exact H |].
    apply IH, step_devices_kept, H. }
  split; [exact Hs |]. destruct Hs as [ds ->]. simpl. eauto.
Qed.

(** ** Selection through the rows *)

Lemma select_fields (env : ProcessEnv) (v : option string) (s : State) :
  select env v s = s \/
  (body_mounted s = true /\ activeUser (select env v s) = v /\
   body_mounted (select env v s) = true /\
   (network (select env v s) = network s \/
    exists e, v = Some e /\ e <> "" /\
      network (select env v s) = (network s ++ [devices_request env e])%list)).
Proof.
  unfold select. destruct (body_mounted s) eqn:Hm; [| auto].
  destruct (decide (v = activeUser s)); [auto |]. right.
  split; [reflexivity |]. unfold fetchUserDevice; simpl.
  destruct v as [e|]; [destruct e as [|c e] |]; simpl; auto.
  repeat split; auto. right. eexists. repeat split. discriminate.
Qed.

Lemma selects_accepted_settle {A} (env : ProcessEnv) (slot : Join -> option A)
  (fill : A -> Join -> Join) (r : Settled A) (s : State) :
  reachable_shape env s -> selects_accepted env s ->
  selects_accepted env (settle slot fill r s).
Proof.
  intros Hs Hu. unfold settle.
  destruct (load s) as [ |j| ] eqn:Hl; try exact Hu.
  destruct (slot j); [exact Hu |].
  unfold reachable_shape in Hs. rewrite Hl in Hs.
  destruct Hs as (_ & (Hd & _ & Ha & _) & _ & Hn & _).
  destruct r as [v|e].
  - unfold resume. repeat case_match; intros info; simpl;
      try (rewrite Hd; discriminate).
    intros _. rewrite Ha, Hn. split; [discriminate | auto].
  - intros info. simpl. rewrite Hd. discriminate.
Qed.

Lemma selects_accepted_step (env : ProcessEnv) (s : State) (ev : Event) :
  from_page ev = true -> reachable_shape env s -> selects_accepted env s ->
  selects_accepted env (step env s ev).
Proof.
  intros Hp Hs Hu. destruct ev as [ |r|r|r|v|row|id r]; simpl;
    try discriminate Hp.
  - destruct (load s) eqn:Hl; try exact Hu.
    unfold reachable_shape in Hs. rewrite Hl in Hs. subst s.
    intros info. discriminate.
  - apply selects_accepted_settle; assumption.
  - apply selects_accepted_settle; assumption.
  - apply selects_accepted_settle; assumption.
  - unfold click. destruct (dashlaneInfo s) as [info|] eqn:Hd; [| exact Hu].
    destruct (members (users info) !! row) as [user|] eqn:Hrow; [| exact Hu].
    destruct (String.eqb _ _) eqn:Hst; [| exact Hu].
    apply String.eqb_eq in Hst.
    assert (Hacc : accepted_email info (Member.email user)).
    { exists user. split; [eapply list_elem_of_lookup_2; eauto | auto]. }
    destruct (select_keeps_load env (Some (Member.email user)) s)
      as (_ & Hd' & _).
    destruct (select_fields env (Some (Member.email user)) s)
      as [->|(_ & Ha & _ & Hn)]; [exact Hu |].
    intros info'. rewrite Hd', Hd. intros [= <-].
    destruct (Hu info Hd) as [_ Hreq]. split.
    + rewrite Ha. intros e [= <-]. exact Hacc.
    + destruct Hn as [-> | (e & [= <-] & _ & ->)]; [exact Hreq |].
      intros r Hr. apply elem_of_app in Hr as [Hr|Hr]; [auto |].
      apply list_elem_of_singleton in Hr. right. eauto.
  - destruct (inflight s !! id); [| exact Hu].
    intros info Hd. destruct r; simpl in *; apply (Hu info Hd).
Qed.

(** X10: when the selection changes only through the buttons of the rows,
    the selected email is always that of a member with status "accepted",
    and every device request sent is for such a member. *)
Theorem page_selects_accepted_members (env : ProcessEnv) (evs : list Event) :
  forallb from_page evs = true ->
  let s := run env initial evs in
  (forall e, activeUser s = Some e ->
     exists info, dashlaneInfo s = Some info /\ accepted_email info e) /\
  (forall r, r ∈ network s ->
     r ∈ initial_requests env \/
     exists info e, dashlaneInfo s = Some info /\ accepted_email info e /\
                    r = devices_request env e).
Proof.
  intros Hp s.
  assert (H : reachable_shape env s /\ selects_accepted env s).
  { subst s. assert (H0 : selects_accepted env initial)
      by (intros info; discriminate).
    pose proof (shape_initial env) as Hs0.
    revert Hp H0 Hs0. generalize initial.
    induction evs as [|ev evs IH]; intros s Hp H0 Hs0; [auto |].
    simpl in Hp. apply andb_true_iff in Hp as [Hev Hp].
    apply IH; [exact Hp | |].
    - apply selects_accepted_step; assumption.
    - apply shape_step; assumption. }
  destruct H as [Hs Hu].
  destruct (dashlaneInfo s) as [info|] eqn:Hd.
  - destruct (Hu info Hd) as [Ha Hr]. split.
    + intros e He. exists info. auto.
    + intros r Hin. destruct (Hr r Hin) as [|(e & Hacc & ->)]; [auto |].
      right. exists info, e. auto.
  - destruct (shape_no_data env s Hs Hd) as (Ha & _ & _ & Hn). split.
    + rewrite Ha. discriminate.
    + intros r Hin. left. destruct Hn as [Hn|Hn]; rewrite Hn in Hin;
        [inversion Hin | exact Hin].
Qed.

Lemma select_again (env : ProcessEnv) (v : option string) (s : State) :
  select env v (select env v s) = select env v s.
Proof.
  destruct (select_fields env v s) as [E | (_ & Ha & Hm & _)];
    [rewrite !E; reflexivity |].
  unfold select at 1. rewrite Hm, Ha.
  destruct (decide (v = v)); [reflexivity | contradiction].
Qed.

(** X11: clicking the same row again right away changes nothing: no
    second request is sent. *)
Theorem click_twice (env : ProcessEnv) (row : nat) (s : State) :
  click env row (click env row s) = click env row s.
Proof.
  destruct (click_keeps_load env row s) as (_ & Hd & _).
  unfold click at 1. rewrite Hd. unfold click.
  destruct (dashlaneInfo s) as [info|]; [| reflexivity].
  destruct (members (users info) !! row) as [user|]; [| reflexivity].
  destruct (String.eqb _ _); [apply select_again | reflexivity].
Qed.

(** X12: a click acts on the member the row shows: on a row outside the
    table or without a button it does nothing; on a row with a button it
    selects the email shown in the row and, when that email is not empty
    and not already selected, sends the device request for it. *)
Theorem click_follows_row (env : ProcessEnv) (s : State) (info : DashlaneInfo)
  (row : nat) :
  dashlaneInfo s = Some info ->
  match UsersInfo (users info) !! row with
  | None => click env row s = s
  | Some r =>
      (cell_button r = false -> click env row s = s) /\
      (cell_button r = true -> body_mounted s = true ->
       activeUser (click env row s) = Some (cell_email r) /\
       (cell_email r <> "" -> activeUser s <> Some (cell_email r) ->
        network (click env row s) =
          (network s ++ [devices_request env (cell_email r)])%list))
  end.
Proof.
  intros Hd. unfold UsersInfo, click. rewrite Hd, list_lookup_fmap.
  destruct (members (users info) !! row) as [user|]; simpl; [| reflexivity].
  destruct (String.eqb (Member.status user) "accepted"); split;
    try discriminate; try reflexivity.
  intros _ Hm. split.
  - unfold select. rewrite Hm.
    destruct (decide (Some (Member.email user) = activeUser s)) as [E|_];
      [symmetry; exact E |].
    unfold fetchUserDevice; simpl. destruct (Js.truthy_string _); reflexivity.
  - intros He Ha. rewrite (select_issues env s _ Hm He Ha). reflexivity.
Qed.

(** A value that begins with "Bearer " and goes on with printable
    characters other than the space is sent as it is. *)
Lemma strip_trailing_visible (t : string) :
  t <> "" -> forallb visible_ascii (String.list_ascii_of_string t) = true ->
  strip_trailing t = t.
Proof.
  induction t as [|c t IH]; [contradiction |]. intros _ Hv. simpl in Hv.
  apply andb_true_iff in Hv as [Hc Ht]. simpl.
  assert (Hw : http_whitespace c = false).
  { unfold visible_ascii in Hc. apply andb_true_iff in Hc as [H1 H2].
    apply Nat.leb_le in H1. unfold http_whitespace.
    destruct (nat_of_ascii c) as [|n]; [lia |].
    do 32 (destruct n as [|n]; [try lia; try reflexivity |]). reflexivity. }
  destruct t as [|d t]; [simpl; rewrite Hw; reflexivity |].
  rewrite IH by (discriminate || exact Ht). reflexivity.
Qed.

Lemma strip_trailing_app (p t : string) :
  t <> "" -> strip_trailing t = t ->
  strip_trailing (String.append p t) = String.append p t.
Proof.
  intros Hne Ht. induction p as [|c p IH]; [exact Ht |].
  change (String.append (String c p) t) with (String c (String.append p t)).
  cbn [strip_trailing]. rewrite IH.
  destruct (String.append p t) eqn:E; [| reflexivity].
  destruct p; [contradiction | discriminate E].
Qed.

(** X14: every request ever sent goes to one of the four endpoints under
    the base path, with the body of that endpoint. Its Authorization header
    is "Bearer" alone when the token is set but empty, and "Bearer <token>"
    when the token is a non-empty string of printable characters other
    than the space. *)
Theorem request_headers_and_urls (env : ProcessEnv) (evs : list Event)
  (i : nat) (r : Request) :
  network (run env initial evs) !! i = Some r ->
  (AUTH_TOKEN env = Some "" ->
   header "Authorization" (req_headers r) = Some "Bearer") /\
  (forall token, AUTH_TOKEN env = Some token -> token <> "" ->
     forallb visible_ascii (String.list_ascii_of_string token) = true ->
     header "Authorization" (req_headers r) = Some ("Bearer " ++ token)) /\
  ((url r = "/dashlane-api/public/teams/Status" /\ body r = None) \/
   (url r = "/dashlane-api/public/teams/PasswordHealth" /\ body r = None) \/
   (url r = "/dashlane-api/public/teams/Members" /\
    body r = Some (MembersQuery 0 "ASC" "email" 100)) \/
   (url r = "/dashlane-api/public/teams/MembersDeviceInformation" /\
    exists e, e <> "" /\ body r = Some (DevicesQuery [e]))).
Proof.
  intros Hr.
  pose proof (shape_run env evs initial (shape_initial env)) as H.
  destruct (shape_network env _ H) as [[Hn _] | (emails & Hn & Hne)];
    rewrite Hn in Hr; [discriminate |].
  assert (Hin : r ∈ (initial_requests env ++ map (devices_request env) emails)%list)
    by (eapply list_elem_of_lookup_2; exact Hr).
  assert (Hreq : req_headers r = wire_headers (headers (api env)) /\
    ((url r = "/dashlane-api/public/teams/Status" /\ body r = None) \/
     (url r = "/dashlane-api/public/teams/PasswordHealth" /\ body r = None) \/
     (url r = "/dashlane-api/public/teams/Members" /\
      body r = Some (MembersQuery 0 "ASC" "email" 100)) \/
     (url r = "/dashlane-api/public/teams/MembersDeviceInformation" /\
      exists e, e <> "" /\ body r = Some (DevicesQuery [e])))).
  { apply elem_of_app in Hin as [Hin|Hin].
    - unfold initial_requests in Hin.
      rewrite !elem_of_cons, elem_of_nil in Hin.
      destruct Hin as [->|[->|[->|[]]]]; (split; [reflexivity |]); auto 10.
    - apply list_elem_of_fmap in Hin as (e & -> & He).
      rewrite Forall_forall in Hne. split; [reflexivity |].
      right; right; right. split; [reflexivity |]. exists e.
      split; [| reflexivity]. apply Hne, He. }
  destruct Hreq as [Hh Hu]. rewrite Hh. unfold api; simpl.
  split; [intros ->; reflexivity |]. split; [| exact Hu].
  intros token -> Hfull Hv. simpl. unfold normalize_value.
  change (strip_leading ("Bearer " ++ token)) with ("Bearer " ++ token).
  rewrite (strip_trailing_app "Bearer " token Hfull
             (strip_trailing_visible token Hfull Hv)).
  reflexivity.
Qed.

(** X23: with nothing in flight, selecting a member sends one request,
    and when its response arrives the list shown is that response's, the
    selection is unchanged and nothing is left in flight. *)
Theorem one_selection_at_a_time (env : ProcessEnv) (s : State) (e : string)
  (r : Response Devices) :
  body_mounted s = true -> inflight s = ∅ -> e <> "" ->
  activeUser s <> Some e ->
  let id := length (network s) in
  let s1 := step env s (SetActiveUser (Some e)) in
  let s2 := step env s1 (DevicesSettled id (Fulfilled r)) in
  inflight s1 = {[ id := e ]} /\
  network s1 = (network s ++ [devices_request env e])%list /\
  activeUser s2 = Some e /\
  userDevices s2 = Some (devices (data (data r))) /\
  DevicesInfo (userDevices s2) = Some (map UserDevice (devices (data (data r)))) /\
  inflight s2 = ∅ /\
  body_mounted s2 = true.
Proof.
  intros Hm Hi He Ha id s1 s2.
  assert (E1 : s1 = set_inflight {[ id := e ]}
                  (send (devices_request env e) (setActiveUser (Some e) s))).
  { subst s1. simpl. rewrite (select_issues env s e Hm He Ha), Hi.
    reflexivity. }
  subst s2. rewrite E1. simpl. rewrite lookup_singleton_eq. simpl.
  rewrite delete_singleton_eq. repeat split. exact Hm.
Qed.

Lemma one_selection_at_a_time_witness :
  let s := run some_key initial loaded in
  let s1 := step some_key s (SetActiveUser (Some "a@x.com")) in
  let s2 := step some_key s1 (DevicesSettled (length (network s))
                                (Fulfilled devices_of_a)) in
  userDevices s2 = Some (devices (data (data devices_of_a))).
Proof.
  assert (Hm : body_mounted (run some_key initial loaded) = true)
    by (vm_compute; reflexivity).
  assert (Hi : inflight (run some_key initial loaded) = ∅)
    by (vm_compute; reflexivity).
  assert (Ha : activeUser (run some_key initial loaded) <> Some "a@x.com")
    by (vm_compute; discriminate).
  destruct (one_selection_at_a_time some_key (run some_key initial loaded)
              "a@x.com" devices_of_a Hm Hi ltac:(discriminate) Ha)
    as (_ & _ & _ & Hu & _).
  exact Hu.
Defined.

Lemma nothing_selected_before_data_witness :
  let s := run some_key initial [Mount; SetActiveUser (Some "a@x.com")] in
  dashlaneInfo s = None /\ activeUser s = None /\ userDevices s = None.
Proof.
  assert (Hd : dashlaneInfo (run some_key initial
                               [Mount; SetActiveUser (Some "a@x.com")]) = None)
    by (vm_compute; reflexivity).
  destruct (nothing_selected_before_data some_key
              [Mount; SetActiveUser (Some "a@x.com")] Hd) as (Ha & Hu & _).
  cbv zeta. split; [exact Hd | split; [exact Ha | exact Hu]].
Defined.

Lemma inflight_refers_to_request_witness :
  let s := run some_key initial (loaded ++ [SetActiveUser (Some "a@x.com")]) in
  inflight s !! 3%nat = Some "a@x.com" /\
  network s !! 3%nat = Some (devices_request some_key "a@x.com").
Proof.
  assert (Hi : inflight (run some_key initial
                           (loaded ++ [SetActiveUser (Some "a@x.com")]))
               !! 3%nat = Some "a@x.com") by (vm_compute; reflexivity).
  destruct (inflight_refers_to_request some_key
              (loaded ++ [SetActiveUser (Some "a@x.com")]) 3 "a@x.com" Hi)
    as (Hn & _).
  cbv zeta. split; [exact Hi | exact Hn].
Defined.

Lemma dashboard_is_kept_witness :
  let s := run some_key initial loaded in
  let s' := run some_key s [ SetActiveUser (Some "a@x.com");
                             DevicesSettled 3 (Rejected NetworkError);
                             StatusSettled (Rejected NetworkError) ] in
  hasError s' = false /\
  dashlaneInfo s' = Some (assemble (respond sample_team) (respond sample_health)
                            (respond sample_users)).
Proof.
  assert (Hd : dashlaneInfo (run some_key initial loaded)
               = Some (assemble (respond sample_team) (respond sample_health)
                         (respond sample_users))) by (vm_compute; reflexivity).
  destruct (dashboard_is_kept some_key loaded
              [ SetActiveUser (Some "a@x.com");
                DevicesSettled 3 (Rejected NetworkError);
                StatusSettled (Rejected NetworkError) ] _ Hd) as (Hd' & He & _).
  cbv zeta. split; [exact He | exact Hd'].
Defined.

Lemma dashboard_from_three_responses_witness :
  Mount ∈ loaded /\
  dashlaneInfo (run some_key initial loaded)
  = Some (assemble (respond sample_team) (respond sample_health)
            (respond sample_users)).
Proof.
  assert (Hd : dashlaneInfo (run some_key initial loaded)
               = Some (assemble (respond sample_team) (respond sample_health)
                         (respond sample_users))) by (vm_compute; reflexivity).
  split; [| exact Hd].
  exact (proj1 (dashboard_from_three_responses some_key loaded _ Hd)).
Defined.

Lemma devices_from_a_response_witness :
  let evs := (loaded ++ [ SetActiveUser (Some "a@x.com");
                          DevicesSettled 3 (Fulfilled devices_of_a) ])%list in
  userDevices (run some_key initial evs) = Some [device "a-laptop"] /\
  exists id r e,
    DevicesSettled id (Fulfilled r) ∈ evs /\
    network (run some_key initial evs) !! id
      = Some (devices_request some_key e) /\
    [device "a-laptop"] = devices (data (data r)).
Proof.
  assert (Hu : userDevices
                 (run some_key initial
                    (loaded ++ [ SetActiveUser (Some "a@x.com");
                                 DevicesSettled 3 (Fulfilled devices_of_a) ]))
               = Some [device "a-laptop"]) by (vm_compute; reflexivity).
  cbv zeta. split; [exact Hu |].
  exact (devices_from_a_response some_key _ _ Hu).
Defined.

Lemma device_list_never_cleared_witness :
  let s := run some_key initial
             (loaded ++ [ SetActiveUser (Some "a@x.com");
                          DevicesSettled 3 (Fulfilled devices_of_a) ]) in
  is_Some (userDevices s) /\
  is_Some (userDevices (run some_key s [SetActiveUser None; Click 2])).
Proof.
  assert (Hu : is_Some (userDevices
                 (run some_key initial
                    (loaded ++ [ SetActiveUser (Some "a@x.com");
                                 DevicesSettled 3 (Fulfilled devices_of_a) ]))))
    by (exists [device "a-laptop"]; vm_compute; reflexivity).
  cbv zeta. split; [exact Hu |].
  exact (proj1 (device_list_never_cleared some_key
                  [SetActiveUser None; Click 2] _ Hu)).
Defined.

Lemma page_selects_accepted_members_witness :
  let evs := (loaded ++ [Click 2; Click 1])%list in
  forallb from_page evs = true /\
  forall e, activeUser (run some_key initial evs) = Some e ->
    exists info, dashlaneInfo (run some_key initial evs) = Some info /\
                 accepted_email info e.
Proof.
  assert (Hp : forallb from_page (loaded ++ [Click 2; Click 1]) = true)
    by (vm_compute; reflexivity).
  cbv zeta. split; [exact Hp |].
  exact (proj1 (page_selects_accepted_members some_key _ Hp)).
Defined.

Lemma click_follows_row_witness :
  let s := run some_key initial loaded in
  dashlaneInfo s = Some (assemble (respond sample_team) (respond sample_health)
                           (respond sample_users)) /\
  click some_key 2 s = s.
Proof.
  assert (Hd : dashlaneInfo (run some_key initial loaded)
               = Some (assemble (respond sample_team) (respond sample_health)
                         (respond sample_users))) by (vm_compute; reflexivity).
  cbv zeta. split; [exact Hd |].
  pose proof (click_follows_row some_key (run some_key initial loaded) _ 2 Hd)
    as H.
  change (UsersInfo (users (assemble (respond sample_team)
            (respond sample_health) (respond sample_users))) !! 2%nat)
    with (Some (UserProfile (member "c@x.com" "pending"))) in H.
  exact (proj1 H eq_refl).
Defined.

Lemma request_headers_and_urls_witness :
  network (run some_key initial loaded) !! 0%nat
    = Some (post (api some_key) "/Status" None) /\
  header "Authorization" (req_headers (post (api some_key) "/Status" None))
    = Some "Bearer DLP_0123".
Proof.
  assert (Hr : network (run some_key initial loaded) !! 0%nat
               = Some (post (api some_key) "/Status" None))
    by (vm_compute; reflexivity).
  split; [exact Hr |].
  refine (proj1 (proj2 (request_headers_and_urls some_key loaded 0 _ Hr))
            "DLP_0123" eq_refl _ eq_refl).
  discriminate.
Defined.
